(** * Charging policy of the System76 EC battery module

    A shallow embedding of [src/board/system76/common/battery.c]: the
    charging thresholds, the telemetry snapshot refreshed over SMBus, the
    sticky charge / no-charge decision and the two register sequences that
    program the charger.

    Conventions.
    - C integers are [Z].  The telemetry variables are [uint16_t]; the only
      place a value enters one of them is the out-parameter of [smbus_read],
      where the 16-bit wrap-around is written out ([to_uint16]).  The data
      parameter of [smbus_write] is a [uint16_t] as well: what reaches the
      bus is the 16-bit word of the argument.
    - The globals of the translation unit, the function-local [static]
      of [battery_charger_configure] and the traffic seen on the bus are the
      fields of one [state] record, threaded through a small state monad.
    - [smbus_read] and [smbus_write] live in another translation unit.  They
      are taken as parameters: an oracle that answers each transaction from
      the traffic that preceded it, so that a device may fail any
      transaction it likes.
    - [DEBUG] only prints; it has no counterpart here.  [battery_init] only
      hands the two settings to the configuration store of common/config.c
      and is not modelled. *)

From Stdlib Require Import ZArith List Bool Lia String.
Import ListNotations.
Local Open Scope Z_scope.

(** ** Machine integers and constants *)

Definition to_uint16 (x : Z) : Z := x mod 65536.

Definition BATTERY_ADDRESS : Z := 0x0B.
Definition CHARGER_ADDRESS : Z := 0x09.

(** ChargeOption0 flags. *)
Definition SBC_EN_LWPWR : Z := to_uint16 (Z.shiftl 1 15).
Definition SBC_WDTMR_ADJ_175S : Z := to_uint16 (Z.shiftl 3 13).
Definition SBC_PWM_FREQ_800KHZ : Z := to_uint16 (Z.shiftl 1 8).
Definition SBC_IDCHC_GAIN : Z := to_uint16 (Z.shiftl 1 3).

(** ** Configuration settings

    [config_t] is declared in [common/config.h]; its shape is read off the
    two initialisers in battery.c.  The inner struct is the C field
    [.value]; it is called [config_value] here because a record cannot have
    a field named like a field of its own field.  [set_callback] is [NULL]
    in both settings and is left out. *)

Record config_value_t : Type := mk_config_value {
  min_value : Z;
  max_value : Z;
  value : Z
}.

Record config_t : Type := mk_config {
  config_id : string;
  config_short : string;
  config_desc : string;
  config_value : config_value_t
}.

Definition with_value (config : config_t) (v : Z) : config_t :=
  mk_config (config_id config) (config_short config) (config_desc config)
    (mk_config_value (min_value (config_value config))
       (max_value (config_value config)) v).

(** Modelled from the spec: [config_get_value] of common/config.c, which is
    not part of the sources at hand.  "Getters always succeed and return the
    last validated value." *)
Definition config_get_value (config : config_t) : Z :=
  value (config_value config).

(** Modelled from the spec: [config_set_value] of common/config.c, which is
    not part of the sources at hand.  "Setters validate v against the
    setting's bounds; out-of-range values are rejected (return false) and
    the stored value is unchanged"; a value within the bounds becomes the
    stored value. *)
Definition config_set_value (config : config_t) (v : Z) : bool * config_t :=
  if (v <? min_value (config_value config))
     || (max_value (config_value config) <? v)
  then (false, config)
  else (true, with_value config v).

Definition in_bounds (config : config_t) : Prop :=
  min_value (config_value config) <= value (config_value config)
  <= max_value (config_value config).

(** ** Bus traffic *)

Inductive bus_op : Type :=
| BusWrite (address command data res : Z)
| BusRead (address command res data : Z).

Definition result (op : bus_op) : Z :=
  match op with
  | BusWrite _ _ _ res => res
  | BusRead _ _ res _ => res
  end.

Definition data_of (op : bus_op) : Z :=
  match op with
  | BusWrite _ _ data _ => data
  | BusRead _ _ _ data => data
  end.

(** ** Program state *)

Record state : Type := mk_state {
  battery_temp : Z;
  battery_voltage : Z;
  battery_current : Z;
  battery_charge : Z;
  battery_remaining_capacity : Z;
  battery_full_capacity : Z;
  battery_status : Z;
  battery_design_capacity : Z;
  battery_design_voltage : Z;
  battery_start_threshold : config_t;
  battery_stop_threshold : config_t;
  charger_enabled : bool;
  should_charge : bool;
  bus_log : list bus_op
}.

Definition set_battery_temp (v : Z) (s : state) : state :=
  mk_state v (battery_voltage s) (battery_current s) (battery_charge s)
    (battery_remaining_capacity s) (battery_full_capacity s)
    (battery_status s) (battery_design_capacity s) (battery_design_voltage s)
    (battery_start_threshold s) (battery_stop_threshold s)
    (charger_enabled s) (should_charge s) (bus_log s).

Definition set_battery_voltage (v : Z) (s : state) : state :=
  mk_state (battery_temp s) v (battery_current s) (battery_charge s)
    (battery_remaining_capacity s) (battery_full_capacity s)
    (battery_status s) (battery_design_capacity s) (battery_design_voltage s)
    (battery_start_threshold s) (battery_stop_threshold s)
    (charger_enabled s) (should_charge s) (bus_log s).

Definition set_battery_current (v : Z) (s : state) : state :=
  mk_state (battery_temp s) (battery_voltage s) v (battery_charge s)
    (battery_remaining_capacity s) (battery_full_capacity s)
    (battery_status s) (battery_design_capacity s) (battery_design_voltage s)
    (battery_start_threshold s) (battery_stop_threshold s)
    (charger_enabled s) (should_charge s) (bus_log s).

Definition set_battery_charge (v : Z) (s : state) : state :=
  mk_state (battery_temp s) (battery_voltage s) (battery_current s) v
    (battery_remaining_capacity s) (battery_full_capacity s)
    (battery_status s) (battery_design_capacity s) (battery_design_voltage s)
    (battery_start_threshold s) (battery_stop_threshold s)
    (charger_enabled s) (should_charge s) (bus_log s).

Definition set_battery_remaining_capacity (v : Z) (s : state) : state :=
  mk_state (battery_temp s) (battery_voltage s) (battery_current s)
    (battery_charge s) v (battery_full_capacity s)
    (battery_status s) (battery_design_capacity s) (battery_design_voltage s)
    (battery_start_threshold s) (battery_stop_threshold s)
    (charger_enabled s) (should_charge s) (bus_log s).

Definition set_battery_full_capacity (v : Z) (s : state) : state :=
  mk_state (battery_temp s) (battery_voltage s) (battery_current s)
    (battery_charge s) (battery_remaining_capacity s) v
    (battery_status s) (battery_design_capacity s) (battery_design_voltage s)
    (battery_start_threshold s) (battery_stop_threshold s)
    (charger_enabled s) (should_charge s) (bus_log s).

Definition set_battery_status (v : Z) (s : state) : state :=
  mk_state (battery_temp s) (battery_voltage s) (battery_current s)
    (battery_charge s) (battery_remaining_capacity s)
    (battery_full_capacity s) v (battery_design_capacity s)
    (battery_design_voltage s)
    (battery_start_threshold s) (battery_stop_threshold s)
    (charger_enabled s) (should_charge s) (bus_log s).

Definition set_battery_design_capacity (v : Z) (s : state) : state :=
  mk_state (battery_temp s) (battery_voltage s) (battery_current s)
    (battery_charge s) (battery_remaining_capacity s)
    (battery_full_capacity s) (battery_status s) v
    (battery_design_voltage s)
    (battery_start_threshold s) (battery_stop_threshold s)
    (charger_enabled s) (should_charge s) (bus_log s).

Definition set_battery_design_voltage (v : Z) (s : state) : state :=
  mk_state (battery_temp s) (battery_voltage s) (battery_current s)
    (battery_charge s) (battery_remaining_capacity s)
    (battery_full_capacity s) (battery_status s)
    (battery_design_capacity s) v
    (battery_start_threshold s) (battery_stop_threshold s)
    (charger_enabled s) (should_charge s) (bus_log s).

Definition set_battery_start_threshold (c : config_t) (s : state) : state :=
  mk_state (battery_temp s) (battery_voltage s) (battery_current s)
    (battery_charge s) (battery_remaining_capacity s)
    (battery_full_capacity s) (battery_status s)
    (battery_design_capacity s) (battery_design_voltage s)
    c (battery_stop_threshold s)
    (charger_enabled s) (should_charge s) (bus_log s).

Definition set_battery_stop_threshold (c : config_t) (s : state) : state :=
  mk_state (battery_temp s) (battery_voltage s) (battery_current s)
    (battery_charge s) (battery_remaining_capacity s)
    (battery_full_capacity s) (battery_status s)
    (battery_design_capacity s) (battery_design_voltage s)
    (battery_start_threshold s) c
    (charger_enabled s) (should_charge s) (bus_log s).

Definition set_charger_enabled (b : bool) (s : state) : state :=
  mk_state (battery_temp s) (battery_voltage s) (battery_current s)
    (battery_charge s) (battery_remaining_capacity s)
    (battery_full_capacity s) (battery_status s)
    (battery_design_capacity s) (battery_design_voltage s)
    (battery_start_threshold s) (battery_stop_threshold s)
    b (should_charge s) (bus_log s).

Definition set_should_charge (b : bool) (s : state) : state :=
  mk_state (battery_temp s) (battery_voltage s) (battery_current s)
    (battery_charge s) (battery_remaining_capacity s)
    (battery_full_capacity s) (battery_status s)
    (battery_design_capacity s) (battery_design_voltage s)
    (battery_start_threshold s) (battery_stop_threshold s)
    (charger_enabled s) b (bus_log s).

Definition set_bus_log (l : list bus_op) (s : state) : state :=
  mk_state (battery_temp s) (battery_voltage s) (battery_current s)
    (battery_charge s) (battery_remaining_capacity s)
    (battery_full_capacity s) (battery_status s)
    (battery_design_capacity s) (battery_design_voltage s)
    (battery_start_threshold s) (battery_stop_threshold s)
    (charger_enabled s) (should_charge s) l.

(** The initialisers of battery.c. *)
Definition initial_start_threshold : config_t :=
  mk_config "BCTL" "Battery Charging Start Threshold"
    "Relative capacity at which the battery will start charging"
    (mk_config_value 0 99 0).

Definition initial_stop_threshold : config_t :=
  mk_config "BCTH" "Battery Charging Stop Threshold"
    "Relative capacity at which the battery will stop charging"
    (mk_config_value 1 100 100).

Definition initial_state : state :=
  mk_state 0 0 0 0 0 0 0 0 0
    initial_start_threshold initial_stop_threshold
    false true [].

(** ** The state monad *)

Definition M (A : Type) : Type := state -> A * state.

Definition ret {A : Type} (a : A) : M A := fun s => (a, s).

Definition bind {A B : Type} (m : M A) (k : A -> M B) : M B :=
  fun s => let (a, s') := m s in k a s'.

Definition gets {A : Type} (f : state -> A) : M A := fun s => (f s, s).

Definition modify (f : state -> state) : M unit := fun s => (tt, f s).

Declare Scope m_scope.
Delimit Scope m_scope with M.
Notation "x <- m ;; k" := (bind m (fun x => k))
  (at level 61, m at next level, right associativity) : m_scope.
Notation "m ;; k" := (bind m (fun _ => k))
  (at level 61, right associativity) : m_scope.
Local Open Scope m_scope.

(** ** Threshold accessors (battery.c, lines 62-76) *)

Definition battery_get_start_threshold : M Z :=
  gets (fun s => config_get_value (battery_start_threshold s)).

Definition battery_get_stop_threshold : M Z :=
  gets (fun s => config_get_value (battery_stop_threshold s)).

Definition battery_set_start_threshold (v : Z) : M bool :=
  fun s =>
    let (ok, c) := config_set_value (battery_start_threshold s) v in
    (ok, set_battery_start_threshold c s).

Definition battery_set_stop_threshold (v : Z) : M bool :=
  fun s =>
    let (ok, c) := config_set_value (battery_stop_threshold s) v in
    (ok, set_battery_stop_threshold c s).

(** ** The decision rule in the words of the specification

    A priority list of (condition, outcome) pairs; the first pair whose
    condition holds gives the outcome, and the prior decision stands when
    none does. *)

Inductive ChargeCommand : Type := Charge | NoCharge.

Definition command_of_bool (b : bool) : ChargeCommand :=
  if b then Charge else NoCharge.

Definition bool_of_command (c : ChargeCommand) : bool :=
  match c with Charge => true | NoCharge => false end.

Definition decision_rules (c s t : Z) : list (bool * ChargeCommand) :=
  [ (t =? 100, Charge);
    (c >=? t, NoCharge);
    (s =? 0, Charge);
    (c <=? s, Charge) ].

Fixpoint first_match (rules : list (bool * ChargeCommand))
    (prior : ChargeCommand) : ChargeCommand :=
  match rules with
  | [] => prior
  | (cond, outcome) :: rest => if cond then outcome else first_match rest prior
  end.

Definition spec_decision (c s t : Z) (d : ChargeCommand) : ChargeCommand :=
  first_match (decision_rules c s t) d.

(** ** Sample devices

    Concrete bus devices on which the development is exercised. *)

(** Every write is acknowledged. *)
Definition write_ok : list bus_op -> Z -> Z -> Z -> Z :=
  fun _ _ _ _ => 0.

(** Writes of one command code are refused with result -1, all others are
    acknowledged. *)
Definition write_failing (cmd : Z) : list bus_op -> Z -> Z -> Z -> Z :=
  fun _ _ command _ => if command =? cmd then -1 else 0.

(** Every read returns the command code plus 1000 as its data word. *)
Definition read_ok : list bus_op -> Z -> Z -> Z * Z :=
  fun _ _ command => (0, command + 1000).

(** Reads of one command code fail with result -1 and leave garbage behind. *)
Definition read_failing (cmd : Z) : list bus_op -> Z -> Z -> Z * Z :=
  fun _ _ command =>
    if command =? cmd then (-1, 0xBEEF) else (0, command + 1000).

(** Board limits of the sample board: 1536 mA, 8800 mV, 3200 mA. *)
Definition sample_charge_current : Z := 1536.
Definition sample_charge_voltage : Z := 8800.
Definition sample_input_current : Z := 3200.

(** The initial state with the charger marked enabled. *)
Definition enabled_state : state := set_charger_enabled true initial_state.

(** Thresholds 40 and 80, NoCharge remembered. *)
Definition band_state : state :=
  set_should_charge false
    (set_battery_start_threshold (with_value initial_start_threshold 40)
       (set_battery_stop_threshold (with_value initial_stop_threshold 80)
          initial_state)).

Section Board.

(** Board limits from the board's configuration header. *)
Variable CHARGER_CHARGE_CURRENT : Z.
Variable CHARGER_CHARGE_VOLTAGE : Z.
Variable CHARGER_INPUT_CURRENT : Z.

(** The device behind the bus: the result code of a write, and the result
    code and data word of a read, given the traffic so far. *)
Variable write_result : list bus_op -> Z -> Z -> Z -> Z.
Variable read_result : list bus_op -> Z -> Z -> Z * Z.

(** The transaction that a write to the charger becomes when it is issued
    after the traffic [l]: the word on the bus is the 16-bit word of the
    argument. *)
Definition charger_write (l : list bus_op) (command data : Z) : bus_op :=
  BusWrite CHARGER_ADDRESS command (to_uint16 data)
    (write_result l CHARGER_ADDRESS command (to_uint16 data)).

(** The transaction that a read from the battery becomes after [l]. *)
Definition battery_read (l : list bus_op) (command : Z) : bus_op :=
  BusRead BATTERY_ADDRESS command
    (fst (read_result l BATTERY_ADDRESS command))
    (to_uint16 (snd (read_result l BATTERY_ADDRESS command))).

(** [smbus_write (address, command, data)]: the data parameter is a
    [uint16_t], so the argument is converted to its 16-bit word, which is
    what the device sees and answers.  The addresses and command codes of
    this file are constants below 256. *)
Definition smbus_write (address command data : Z) : M Z :=
  fun s =>
    let word := to_uint16 data in
    let res := write_result (bus_log s) address command word in
    (res, set_bus_log (bus_log s ++ [BusWrite address command word res]) s).

(** [smbus_read (address, command, &N)]: the result code and the word left
    in the 16-bit out-parameter. *)
Definition smbus_read (address command : Z) : M (Z * Z) :=
  fun s =>
    let r := read_result (bus_log s) address command in
    let res := fst r in
    let data := to_uint16 (snd r) in
    ((res, data),
     set_bus_log (bus_log s ++ [BusRead address command res data]) s).

(** ** Charger register programmer (battery.c, lines 78-145) *)

Definition disable_option : Z :=
  Z.lor (Z.lor (Z.lor SBC_EN_LWPWR SBC_WDTMR_ADJ_175S) SBC_PWM_FREQ_800KHZ)
    SBC_IDCHC_GAIN.

Definition enable_option : Z :=
  Z.lor (Z.lor SBC_EN_LWPWR SBC_PWM_FREQ_800KHZ) SBC_IDCHC_GAIN.

Definition battery_charger_disable : M Z :=
  enabled <- gets charger_enabled ;;
  if negb enabled then ret 0 else
  (* Set charge option 0 with 175s watchdog *)
  _ <- smbus_write CHARGER_ADDRESS 0x12 disable_option ;;
  (* Disable charge current *)
  res <- smbus_write CHARGER_ADDRESS 0x14 0 ;;
  if res <? 0 then ret res else
  (* Disable charge voltage *)
  res <- smbus_write CHARGER_ADDRESS 0x15 0 ;;
  if res <? 0 then ret res else
  (* Disable input current *)
  res <- smbus_write CHARGER_ADDRESS 0x3F 0 ;;
  if res <? 0 then ret res else
  modify (set_charger_enabled false) ;;
  ret 0.

Definition battery_charger_enable : M Z :=
  enabled <- gets charger_enabled ;;
  if enabled then ret 0 else
  res <- battery_charger_disable ;;
  if res <? 0 then ret res else
  (* Set charge current in mA *)
  res <- smbus_write CHARGER_ADDRESS 0x14 CHARGER_CHARGE_CURRENT ;;
  if res <? 0 then ret res else
  (* Set charge voltage in mV *)
  res <- smbus_write CHARGER_ADDRESS 0x15 CHARGER_CHARGE_VOLTAGE ;;
  if res <? 0 then ret res else
  (* Set input current in mA *)
  res <- smbus_write CHARGER_ADDRESS 0x3F CHARGER_INPUT_CURRENT ;;
  if res <? 0 then ret res else
  (* Set charge option 0 with watchdog disabled *)
  _ <- smbus_write CHARGER_ADDRESS 0x12 enable_option ;;
  modify (set_charger_enabled true) ;;
  ret 0.

(** ** Charger decision engine (battery.c, lines 150-173)

    [battery_charge] is a [uint16_t] and the thresholds are settings kept
    within [0, 100], so the C comparisons are comparisons of the integers
    themselves. *)

Definition battery_charger_configure : M Z :=
  stop <- battery_get_stop_threshold ;;
  (if stop =? 100 then
     modify (set_should_charge true)
   else
     charge <- gets battery_charge ;;
     stop <- battery_get_stop_threshold ;;
     if charge >=? stop then
       modify (set_should_charge false)
     else
       start <- battery_get_start_threshold ;;
       if start =? 0 then
         modify (set_should_charge true)
       else
         charge <- gets battery_charge ;;
         start <- battery_get_start_threshold ;;
         if charge <=? start then
           modify (set_should_charge true)
         else
           ret tt) ;;
  sc <- gets should_charge ;;
  if sc then battery_charger_enable else battery_charger_disable.

(** ** Telemetry snapshot (battery.c, lines 175-196) *)

Definition command (set_N : Z -> state -> state) (V : Z) : M unit :=
  r <- smbus_read BATTERY_ADDRESS V ;;
  modify (set_N (snd r)) ;;
  if fst r <? 0 then modify (set_N 0) else ret tt.

Definition battery_event : M unit :=
  command set_battery_temp 0x08 ;;
  command set_battery_voltage 0x09 ;;
  command set_battery_current 0x0A ;;
  command set_battery_charge 0x0D ;;
  command set_battery_remaining_capacity 0x0F ;;
  command set_battery_full_capacity 0x10 ;;
  command set_battery_status 0x16 ;;
  command set_battery_design_capacity 0x18 ;;
  command set_battery_design_voltage 0x19.

(** ** Diagnostic dump (battery.c, lines 198-233): reads into a local. *)

Definition debug_command (A V : Z) : M unit :=
  _ <- smbus_read A V ;; ret tt.

Definition battery_debug : M unit :=
  debug_command BATTERY_ADDRESS 0x08 ;;
  debug_command BATTERY_ADDRESS 0x09 ;;
  debug_command BATTERY_ADDRESS 0x0A ;;
  debug_command BATTERY_ADDRESS 0x0D ;;
  debug_command BATTERY_ADDRESS 0x16 ;;
  debug_command CHARGER_ADDRESS 0x12 ;;
  debug_command CHARGER_ADDRESS 0x3B ;;
  debug_command CHARGER_ADDRESS 0x38 ;;
  debug_command CHARGER_ADDRESS 0x37 ;;
  debug_command CHARGER_ADDRESS 0x14 ;;
  debug_command CHARGER_ADDRESS 0x15 ;;
  debug_command CHARGER_ADDRESS 0x39 ;;
  debug_command CHARGER_ADDRESS 0x3F ;;
  debug_command CHARGER_ADDRESS 0x3C ;;
  debug_command CHARGER_ADDRESS 0x3D ;;
  debug_command CHARGER_ADDRESS 0x3A.

(** ** Histories of calls into the module *)

Inductive call : Type :=
| CallGetStart
| CallGetStop
| CallSetStart (v : Z)
| CallSetStop (v : Z)
| CallDisable
| CallEnable
| CallConfigure
| CallEvent
| CallDebug.

Definition exec (c : call) (s : state) : state :=
  match c with
  | CallGetStart => snd (battery_get_start_threshold s)
  | CallGetStop => snd (battery_get_stop_threshold s)
  | CallSetStart v => snd (battery_set_start_threshold v s)
  | CallSetStop v => snd (battery_set_stop_threshold v s)
  | CallDisable => snd (battery_charger_disable s)
  | CallEnable => snd (battery_charger_enable s)
  | CallConfigure => snd (battery_charger_configure s)
  | CallEvent => snd (battery_event s)
  | CallDebug => snd (battery_debug s)
  end.

Definition run (cs : list call) (s : state) : state :=
  fold_left (fun s c => exec c s) cs s.

(** ** Vocabulary of the properties *)

(** What a telemetry variable holds after its read [r]. *)
Definition field_after (r : bus_op) : Z :=
  if result r <? 0 then 0 else data_of r.

(** [s'] has the inputs of the decision rule as [s] has them. *)
Definition same_inputs (s s' : state) : Prop :=
  battery_charge s' = battery_charge s /\
  battery_start_threshold s' = battery_start_threshold s /\
  battery_stop_threshold s' = battery_stop_threshold s /\
  should_charge s' = should_charge s.

Definition is_read (op : bus_op) : bool :=
  match op with
  | BusRead _ _ _ _ => true
  | BusWrite _ _ _ _ => false
  end.

(** [s'] comes from [s] by polling: reads on the bus and nothing that the
    thresholds, the decision or the charger flag would notice. *)
Definition polled (s s' : state) : Prop :=
  battery_start_threshold s' = battery_start_threshold s /\
  battery_stop_threshold s' = battery_stop_threshold s /\
  charger_enabled s' = charger_enabled s /\
  should_charge s' = should_charge s /\
  exists rs, bus_log s' = bus_log s ++ rs /\ forallb is_read rs = true.

(** The two settings keep the bounds they were declared with, and a value
    within them. *)
Definition thresholds_valid (s : state) : Prop :=
  (min_value (config_value (battery_start_threshold s)) = 0 /\
   max_value (config_value (battery_start_threshold s)) = 99 /\
   in_bounds (battery_start_threshold s)) /\
  (min_value (config_value (battery_stop_threshold s)) = 1 /\
   max_value (config_value (battery_stop_threshold s)) = 100 /\
   in_bounds (battery_stop_threshold s)).

(** ** Watchdog bookkeeping on the bus log *)

(** A write of charge option 0 that leaves the watchdog timer running. *)
Definition watchdog_armed (op : bus_op) : bool :=
  match op with
  | BusWrite address command data _ =>
      (address =? CHARGER_ADDRESS) && (command =? 0x12)
      && negb (Z.land data SBC_WDTMR_ADJ_175S =? 0)
  | BusRead _ _ _ _ => false
  end.

(** The last write of [battery_charger_enable], which a call issues when
    it has come through its three limit writes. *)
Definition enable_completed (op : bus_op) : bool :=
  match op with
  | BusWrite address command data _ =>
      (address =? CHARGER_ADDRESS) && (command =? 0x12)
      && (data =? enable_option)
  | BusRead _ _ _ _ => false
  end.

(** Every watchdog-armed write of [l] comes after a completed enable
    ([seen]: one was seen before [l]). *)
Fixpoint guarded (seen : bool) (l : list bus_op) : bool :=
  match l with
  | [] => true
  | op :: l' =>
      (negb (watchdog_armed op) || seen)
      && guarded (seen || enable_completed op) l'
  end.

(** What every history of calls keeps: the log is guarded, and the charger
    is marked enabled only once a completed enable is in the log. *)
Definition watchdog_invariant (s : state) : Prop :=
  guarded false (bus_log s) = true /\
  (charger_enabled s = true ->
   existsb enable_completed (bus_log s) = true).


(** ** Vocabulary of the further properties *)

(** The charge percentage lies strictly between two active thresholds. *)
Definition in_band (c s t : Z) : bool :=
  negb (t =? 100) && negb (s =? 0) && (s <? c) && (c <? t).

(** What the module may put on the bus as a write: to the charger only, and
    there one of the two option words to 0x12, and 0 or the 16-bit word of
    the board's limit to 0x14, 0x15 and 0x3F. *)
Definition write_permitted (op : bus_op) : bool :=
  match op with
  | BusWrite address command data _ =>
      (address =? CHARGER_ADDRESS)
      && (((command =? 0x12)
           && ((data =? disable_option) || (data =? enable_option)))
          || ((command =? 0x14)
              && ((data =? 0) || (data =? to_uint16 CHARGER_CHARGE_CURRENT)))
          || ((command =? 0x15)
              && ((data =? 0) || (data =? to_uint16 CHARGER_CHARGE_VOLTAGE)))
          || ((command =? 0x3F)
              && ((data =? 0) || (data =? to_uint16 CHARGER_INPUT_CURRENT))))
  | BusRead _ _ _ _ => true
  end.

(** The option word of the most recent write to charge option 0. *)
Fixpoint last_option (l : list bus_op) : option Z :=
  match l with
  | [] => None
  | op :: l' =>
      match last_option l' with
      | Some data => Some data
      | None =>
          match op with
          | BusWrite address command data _ =>
              if (address =? CHARGER_ADDRESS) && (command =? 0x12)
              then Some data else None
          | BusRead _ _ _ _ => None
          end
      end
  end.

(** Address and command code of a transaction. *)
Definition target (op : bus_op) : Z * Z :=
  match op with
  | BusWrite address command _ _ => (address, command)
  | BusRead address command _ _ => (address, command)
  end.

(** [m] does nothing but read the targets [ts], in this order. *)
Definition only_reads (ts : list (Z * Z)) (m : M unit) : Prop :=
  forall s : state,
    exists rs : list bus_op,
      m s = (tt, set_bus_log (bus_log s ++ rs) s) /\
      forallb is_read rs = true /\
      map target rs = ts.


(** While the charger is marked disabled, the option word last written, if
    any, is the watchdog-armed one. *)
Definition armed_while_disabled (s : state) : Prop :=
  charger_enabled s = false ->
  last_option (bus_log s) = None \/
  last_option (bus_log s) = Some disable_option.


(** The decision engine run on a series of charge percentages, one call of
    [battery_charger_configure] for each. *)
Definition evaluate_all (charges : list Z) (s : state) : state :=
  fold_left
    (fun s c => snd (battery_charger_configure (set_battery_charge c s)))
    charges s.

(** [s'] differs from [s] at most in the charger flag and in at most four
    more transactions on the bus, none of them a read. *)
Definition programmed (s s' : state) : Prop :=
  exists (b : bool) (ws : list bus_op),
    s' = set_charger_enabled b (set_bus_log (bus_log s ++ ws) s) /\
    (List.length ws <= 4)%nat /\
    existsb is_read ws = false.

(** * Properties *)

(** ** Running the two register sequences *)

Ltac run_monad :=
  unfold bind, gets, modify, ret, smbus_write, smbus_read; cbn beta iota.

(** On a state given by its fields the monadic code runs by computation;
    what is left are the tests on the results the device returned. *)
Ltac norm_state :=
  cbn [negb bus_log charger_enabled should_charge set_bus_log
       set_charger_enabled set_should_charge fst snd result];
  change (0 <? 0) with false; cbn beta iota;
  cbn [negb bus_log charger_enabled should_charge set_bus_log
       set_charger_enabled set_should_charge fst snd result];
  rewrite <- ?app_assoc; cbn [app].

Ltac run_state :=
  cbv zeta; unfold charger_write; run_monad; norm_state;
  repeat match goal with
  | |- context [if ?c <? 0 then _ else _] => destruct (c <? 0); norm_state
  end;
  try reflexivity.

Lemma disable_when_disabled (s : state) :
  charger_enabled s = false -> battery_charger_disable s = (0, s).
Proof.
  intros H. unfold battery_charger_disable. run_monad. now rewrite H.
Qed.

Lemma enable_when_enabled (s : state) :
  charger_enabled s = true -> battery_charger_enable s = (0, s).
Proof.
  intros H. unfold battery_charger_enable. run_monad. now rewrite H.
Qed.

Lemma disable_when_enabled (s : state) :
  charger_enabled s = true ->
  let l0 := bus_log s in
  let w0 := charger_write l0 0x12 disable_option in
  let w1 := charger_write (l0 ++ [w0]) 0x14 0 in
  let w2 := charger_write (l0 ++ [w0; w1]) 0x15 0 in
  let w3 := charger_write (l0 ++ [w0; w1; w2]) 0x3F 0 in
  battery_charger_disable s =
    if result w1 <? 0 then (result w1, set_bus_log (l0 ++ [w0; w1]) s)
    else if result w2 <? 0 then (result w2, set_bus_log (l0 ++ [w0; w1; w2]) s)
    else if result w3 <? 0 then
      (result w3, set_bus_log (l0 ++ [w0; w1; w2; w3]) s)
    else (0, set_charger_enabled false
               (set_bus_log (l0 ++ [w0; w1; w2; w3]) s)).
Proof.
  destruct s; cbn [charger_enabled bus_log]; intros ->.
  unfold battery_charger_disable. run_state.
Qed.

Lemma enable_when_disabled (s : state) :
  charger_enabled s = false ->
  let l0 := bus_log s in
  let w1 := charger_write l0 0x14 CHARGER_CHARGE_CURRENT in
  let w2 := charger_write (l0 ++ [w1]) 0x15 CHARGER_CHARGE_VOLTAGE in
  let w3 := charger_write (l0 ++ [w1; w2]) 0x3F CHARGER_INPUT_CURRENT in
  let w4 := charger_write (l0 ++ [w1; w2; w3]) 0x12 enable_option in
  battery_charger_enable s =
    if result w1 <? 0 then (result w1, set_bus_log (l0 ++ [w1]) s)
    else if result w2 <? 0 then (result w2, set_bus_log (l0 ++ [w1; w2]) s)
    else if result w3 <? 0 then
      (result w3, set_bus_log (l0 ++ [w1; w2; w3]) s)
    else (0, set_charger_enabled true
               (set_bus_log (l0 ++ [w1; w2; w3; w4]) s)).
Proof.
  destruct s; cbn [charger_enabled bus_log]; intros ->.
  unfold battery_charger_enable, battery_charger_disable. run_state.
Qed.

(** Neither sequence touches anything but the bus and [charger_enabled]. *)

Lemma disable_same_inputs (s : state) :
  same_inputs s (snd (battery_charger_disable s)).
Proof.
  destruct (charger_enabled s) eqn:E.
  - rewrite (disable_when_enabled s E). cbv zeta.
    repeat match goal with |- context [if ?c then _ else _] =>
      destruct c end; destruct s; repeat split.
  - rewrite (disable_when_disabled s E). repeat split.
Qed.

Lemma enable_same_inputs (s : state) :
  same_inputs s (snd (battery_charger_enable s)).
Proof.
  destruct (charger_enabled s) eqn:E.
  - rewrite (enable_when_enabled s E). repeat split.
  - rewrite (enable_when_disabled s E). cbv zeta.
    repeat match goal with |- context [if ?c then _ else _] =>
      destruct c end; destruct s; repeat split.
Qed.

(** The rule list, read rule by rule. *)
Lemma spec_decision_cases (c s t : Z) (d : ChargeCommand) :
  (t = 100 -> spec_decision c s t d = Charge) /\
  (t <> 100 -> c >= t -> spec_decision c s t d = NoCharge) /\
  (t <> 100 -> c < t -> s = 0 -> spec_decision c s t d = Charge) /\
  (t <> 100 -> c < t -> s <> 0 -> c <= s -> spec_decision c s t d = Charge) /\
  (t <> 100 -> c < t -> s <> 0 -> c > s -> spec_decision c s t d = d).
Proof.
  unfold spec_decision, decision_rules, first_match.
  rewrite Z.geb_leb.
  destruct (Z.eqb_spec t 100), (Z.leb_spec t c), (Z.eqb_spec s 0),
    (Z.leb_spec c s); repeat split; intros; try reflexivity; lia.
Qed.

(** ** The decision engine *)

Lemma configure_run (s : state) :
  let d :=
    spec_decision (battery_charge s)
      (config_get_value (battery_start_threshold s))
      (config_get_value (battery_stop_threshold s))
      (command_of_bool (should_charge s)) in
  battery_charger_configure s =
    match d with
    | Charge => battery_charger_enable
    | NoCharge => battery_charger_disable
    end (set_should_charge (bool_of_command d) s).
Proof.
  unfold battery_charger_configure, battery_get_stop_threshold,
    battery_get_start_threshold, spec_decision, decision_rules, first_match.
  run_monad.
  destruct (config_get_value (battery_stop_threshold s) =? 100);
    [reflexivity|].
  destruct (battery_charge s >=? config_get_value (battery_stop_threshold s));
    [reflexivity|].
  destruct (config_get_value (battery_start_threshold s) =? 0);
    [reflexivity|].
  destruct (battery_charge s <=? config_get_value (battery_start_threshold s));
    [reflexivity|].
  destruct s as [? ? ? ? ? ? ? ? ? ? ? ? [] ?]; reflexivity.
Qed.

Lemma configure_same_inputs (s : state) :
  let s' := snd (battery_charger_configure s) in
  battery_charge s' = battery_charge s /\
  battery_start_threshold s' = battery_start_threshold s /\
  battery_stop_threshold s' = battery_stop_threshold s.
Proof.
  cbv zeta. rewrite configure_run. cbv zeta.
  destruct (spec_decision _ _ _ _); cbn [bool_of_command].
  - destruct (enable_same_inputs (set_should_charge true s))
      as (-> & -> & -> & _). destruct s; repeat split.
  - destruct (disable_same_inputs (set_should_charge false s))
      as (-> & -> & -> & _). destruct s; repeat split.
Qed.

(** C1: one call of [battery_charger_configure] takes the decision that the
    first matching rule of the priority list gives on the charge percentage,
    the two thresholds and the remembered decision (the remembered decision
    itself when no rule matches), stores it as the remembered decision, and
    applies it: [battery_charger_enable] for Charge,
    [battery_charger_disable] for NoCharge. *)
Theorem battery_charger_configure_first_match (s : state) :
  let d :=
    spec_decision (battery_charge s)
      (config_get_value (battery_start_threshold s))
      (config_get_value (battery_stop_threshold s))
      (command_of_bool (should_charge s)) in
  decision_rules (battery_charge s)
      (config_get_value (battery_start_threshold s))
      (config_get_value (battery_stop_threshold s)) =
    [ (config_get_value (battery_stop_threshold s) =? 100, Charge);
      (battery_charge s >=? config_get_value (battery_stop_threshold s),
       NoCharge);
      (config_get_value (battery_start_threshold s) =? 0, Charge);
      (battery_charge s <=? config_get_value (battery_start_threshold s),
       Charge) ]
  /\ battery_charger_configure s =
    match d with
    | Charge => battery_charger_enable
    | NoCharge => battery_charger_disable
    end (set_should_charge (bool_of_command d) s)
  /\ command_of_bool (should_charge (snd (battery_charger_configure s))) = d.
Proof.
  cbv zeta. split; [reflexivity|].
  split; [apply configure_run|]. rewrite configure_run. cbv zeta.
  destruct (spec_decision _ _ _ _); cbn [bool_of_command].
  - destruct (enable_same_inputs (set_should_charge true s))
      as (_ & _ & _ & ->).
    reflexivity.
  - destruct (disable_same_inputs (set_should_charge false s))
      as (_ & _ & _ & ->).
    reflexivity.
Qed.

(** In the band between two active thresholds a remembered NoCharge is
    kept, and applied. *)
Lemma configure_in_band (c : Z) (s : state) :
  config_get_value (battery_start_threshold s) = 40 ->
  config_get_value (battery_stop_threshold s) = 80 ->
  should_charge s = false ->
  40 < c < 80 ->
  let s' := snd (battery_charger_configure (set_battery_charge c s)) in
  battery_charger_configure (set_battery_charge c s) =
    battery_charger_disable (set_battery_charge c s) /\
  config_get_value (battery_start_threshold s') = 40 /\
  config_get_value (battery_stop_threshold s') = 80 /\
  should_charge s' = false.
Proof.
  intros Hs Ht Hd Hc. cbv zeta.
  assert (E : battery_charger_configure (set_battery_charge c s) =
              battery_charger_disable (set_battery_charge c s)).
  { rewrite configure_run. cbv zeta.
    replace (battery_start_threshold (set_battery_charge c s))
      with (battery_start_threshold s) by (destruct s; reflexivity).
    replace (battery_stop_threshold (set_battery_charge c s))
      with (battery_stop_threshold s) by (destruct s; reflexivity).
    replace (should_charge (set_battery_charge c s))
      with (should_charge s) by (destruct s; reflexivity).
    replace (battery_charge (set_battery_charge c s))
      with c by (destruct s; reflexivity).
    rewrite Hs, Ht, Hd.
    destruct (spec_decision_cases c 40 80 (command_of_bool false))
      as (_ & _ & _ & _ & ->); try lia.
    cbn [command_of_bool bool_of_command].
    f_equal. destruct s; cbn in Hd |- *; now subst. }
  split; [exact E|]. rewrite E.
  destruct (disable_same_inputs (set_battery_charge c s))
    as (_ & -> & -> & ->).
  destruct s; repeat split; assumption.
Qed.

(** C6: with start threshold 40, stop threshold 80 and NoCharge remembered,
    the engine run on the charge percentages 50, 60 and 70 in turn decides
    NoCharge each time (it applies [battery_charger_disable]), and NoCharge
    is what it remembers after each of the three calls. *)
Theorem hysteresis_trace_50_60_70 (s : state) :
  config_get_value (battery_start_threshold s) = 40 ->
  config_get_value (battery_stop_threshold s) = 80 ->
  should_charge s = false ->
  let evaluate c s := battery_charger_configure (set_battery_charge c s) in
  let s1 := snd (evaluate 50 s) in
  let s2 := snd (evaluate 60 s1) in
  let s3 := snd (evaluate 70 s2) in
  (evaluate 50 s = battery_charger_disable (set_battery_charge 50 s) /\
   command_of_bool (should_charge s1) = NoCharge) /\
  (evaluate 60 s1 = battery_charger_disable (set_battery_charge 60 s1) /\
   command_of_bool (should_charge s2) = NoCharge) /\
  (evaluate 70 s2 = battery_charger_disable (set_battery_charge 70 s2) /\
   command_of_bool (should_charge s3) = NoCharge).
Proof.
  intros Hs Ht Hd. cbv zeta.
  destruct (configure_in_band 50 s Hs Ht Hd) as (E1 & Hs1 & Ht1 & Hd1);
    [lia|].
  destruct (configure_in_band 60 _ Hs1 Ht1 Hd1) as (E2 & Hs2 & Ht2 & Hd2);
    [lia|].
  destruct (configure_in_band 70 _ Hs2 Ht2 Hd2) as (E3 & _ & _ & Hd3);
    [lia|].
  rewrite Hd1, Hd2, Hd3. repeat split; assumption.
Qed.

(** ** The register programmer *)

Lemma option_values :
  disable_option = 0xE108 /\ enable_option = 0x8108 /\
  SBC_WDTMR_ADJ_175S = 0x6000.
Proof. repeat split. Qed.

(** C2: with the charger marked enabled, [battery_charger_disable] writes
    charge option 0 (command 0x12) with the low-power, 175 s watchdog,
    800 kHz and discharge-gain flags, then 0 to charge current (0x14), 0 to
    charge voltage (0x15) and 0 to input current (0x3F), in this order.  The
    result of the option write is not looked at; the first of the three zero
    writes that fails ends the call with its negative result, the later
    registers unwritten; when the three succeed the flag is cleared and the
    call returns 0. *)
Theorem battery_charger_disable_sequence (s : state) :
  charger_enabled s = true ->
  let l0 := bus_log s in
  let w0 :=
    charger_write l0 0x12
      (Z.lor (Z.lor (Z.lor SBC_EN_LWPWR SBC_WDTMR_ADJ_175S)
                SBC_PWM_FREQ_800KHZ) SBC_IDCHC_GAIN) in
  let w1 := charger_write (l0 ++ [w0]) 0x14 0 in
  let w2 := charger_write (l0 ++ [w0; w1]) 0x15 0 in
  let w3 := charger_write (l0 ++ [w0; w1; w2]) 0x3F 0 in
  (result w1 < 0 ->
   battery_charger_disable s = (result w1, set_bus_log (l0 ++ [w0; w1]) s)) /\
  (0 <= result w1 -> result w2 < 0 ->
   battery_charger_disable s =
     (result w2, set_bus_log (l0 ++ [w0; w1; w2]) s)) /\
  (0 <= result w1 -> 0 <= result w2 -> result w3 < 0 ->
   battery_charger_disable s =
     (result w3, set_bus_log (l0 ++ [w0; w1; w2; w3]) s)) /\
  (0 <= result w1 -> 0 <= result w2 -> 0 <= result w3 ->
   battery_charger_disable s =
     (0, set_charger_enabled false
           (set_bus_log (l0 ++ [w0; w1; w2; w3]) s))).
Proof.
  intros H. pose proof (disable_when_enabled s H) as E. cbv zeta in *.
  fold disable_option. rewrite E.
  repeat split; intros;
    repeat match goal with |- context [?a <? 0] =>
      destruct (Z.ltb_spec a 0) end; try reflexivity; lia.
Qed.

(** C3: with the charger marked disabled, [battery_charger_enable] begins
    with a call of [battery_charger_disable] whose negative result it hands
    back at once; it then writes the board's charge current (0x14), charge
    voltage (0x15) and input current (0x3F), each failure ending the call
    with its negative result, and last charge option 0 (0x12) with the flags
    of the disable sequence less the watchdog bits; having come that far it
    sets the flag and returns 0.  The word that reaches the bus is the
    16-bit word of the limit, which is the limit itself for a limit that
    fits 16 bits. *)
Theorem battery_charger_enable_sequence (s : state) :
  charger_enabled s = false ->
  let l0 := bus_log s in
  let w1 := charger_write l0 0x14 CHARGER_CHARGE_CURRENT in
  let w2 := charger_write (l0 ++ [w1]) 0x15 CHARGER_CHARGE_VOLTAGE in
  let w3 := charger_write (l0 ++ [w1; w2]) 0x3F CHARGER_INPUT_CURRENT in
  let w4 :=
    charger_write (l0 ++ [w1; w2; w3]) 0x12
      (Z.ldiff disable_option SBC_WDTMR_ADJ_175S) in
  (exists k : Z -> M Z,
     battery_charger_enable s = bind battery_charger_disable k s /\
     forall res s', res < 0 -> k res s' = (res, s')) /\
  (result w1 < 0 ->
   battery_charger_enable s = (result w1, set_bus_log (l0 ++ [w1]) s)) /\
  (0 <= result w1 -> result w2 < 0 ->
   battery_charger_enable s = (result w2, set_bus_log (l0 ++ [w1; w2]) s)) /\
  (0 <= result w1 -> 0 <= result w2 -> result w3 < 0 ->
   battery_charger_enable s =
     (result w3, set_bus_log (l0 ++ [w1; w2; w3]) s)) /\
  (0 <= result w1 -> 0 <= result w2 -> 0 <= result w3 ->
   battery_charger_enable s =
     (0, set_charger_enabled true
           (set_bus_log (l0 ++ [w1; w2; w3; w4]) s))) /\
  (data_of w1 = CHARGER_CHARGE_CURRENT mod 65536 /\
   data_of w2 = CHARGER_CHARGE_VOLTAGE mod 65536 /\
   data_of w3 = CHARGER_INPUT_CURRENT mod 65536 /\
   data_of w4 = 0x8108) /\
  (0 <= CHARGER_CHARGE_CURRENT < 65536 ->
   0 <= CHARGER_CHARGE_VOLTAGE < 65536 ->
   0 <= CHARGER_INPUT_CURRENT < 65536 ->
   data_of w1 = CHARGER_CHARGE_CURRENT /\
   data_of w2 = CHARGER_CHARGE_VOLTAGE /\
   data_of w3 = CHARGER_INPUT_CURRENT).
Proof.
  intros H. pose proof (enable_when_disabled s H) as E. cbv zeta in *.
  change (Z.ldiff disable_option SBC_WDTMR_ADJ_175S) with enable_option.
  split.
  - eexists. split.
    + unfold battery_charger_enable. unfold bind at 1, gets at 1.
      rewrite H. reflexivity.
    + intros res s' Hres. cbv beta.
      destruct (Z.ltb_spec res 0); [reflexivity | lia].
  - rewrite E.
    split; [|split; [|split; [|split; [|split]]]]; intros;
      repeat match goal with |- context [?a <? 0] =>
        destruct (Z.ltb_spec a 0) end; try reflexivity; try lia.
    + repeat split.
    + unfold charger_write, data_of, to_uint16.
      rewrite !Z.mod_small by assumption. repeat split.
Qed.

(** C9: the result of the last write of [battery_charger_enable], the one
    of charge option 0 that takes the watchdog bits away, is never looked
    at: when the three limit writes succeed and this write fails, the call
    still sets [charger_enabled] and returns 0. *)
Theorem battery_charger_enable_ignores_option_write (s : state) :
  charger_enabled s = false ->
  let l0 := bus_log s in
  let w1 := charger_write l0 0x14 CHARGER_CHARGE_CURRENT in
  let w2 := charger_write (l0 ++ [w1]) 0x15 CHARGER_CHARGE_VOLTAGE in
  let w3 := charger_write (l0 ++ [w1; w2]) 0x3F CHARGER_INPUT_CURRENT in
  let w4 := charger_write (l0 ++ [w1; w2; w3]) 0x12 enable_option in
  0 <= result w1 -> 0 <= result w2 -> 0 <= result w3 ->
  result w4 < 0 ->
  fst (battery_charger_enable s) = 0 /\
  charger_enabled (snd (battery_charger_enable s)) = true /\
  bus_log (snd (battery_charger_enable s)) = l0 ++ [w1; w2; w3; w4] /\
  Z.land (data_of w4) SBC_WDTMR_ADJ_175S = 0.
Proof.
  intros H. pose proof (enable_when_disabled s H) as E. cbv zeta in *.
  intros H1 H2 H3 _. rewrite E.
  destruct (Z.ltb_spec (result (charger_write (bus_log s) 0x14
    CHARGER_CHARGE_CURRENT)) 0); [lia|].
  repeat match goal with |- context [?a <? 0] =>
    destruct (Z.ltb_spec a 0); [lia|] end.
  destruct s; repeat split.
Qed.

(** A list that is its own extension is extended by nothing. *)
Lemma app_self_nil {A : Type} (l m : list A) : l = l ++ m -> m = [].
Proof.
  intros H. rewrite <- (app_nil_r l) in H at 1.
  apply app_inv_head in H. now symmetry.
Qed.

(** Finds the place of a transaction in a run of transactions that is
    given one by one. *)
Ltac place_in_run H :=
  repeat match type of H with
  | [] = ?pre ++ _ => destruct pre; discriminate H
  | ?pre ++ _ = [] => destruct pre; discriminate H
  | _ :: _ = ?pre ++ _ :: _ =>
      destruct pre; cbn [app] in H;
      [ inversion H; subst; clear H
      | injection H as _ H ]
  end.

Ltac run_gating Hlog :=
  cbv zeta in *; unfold charger_write in *; cbn [result] in *;
  repeat match goal with H : context [?x <? 0] |- _ =>
    destruct (Z.ltb_spec x 0) end;
  cbn [fst snd bus_log charger_enabled set_bus_log set_charger_enabled]
    in Hlog |- *;
  first [ apply app_inv_head in Hlog | apply app_self_nil in Hlog ];
  place_in_run Hlog;
  solve [repeat split; congruence | lia].

(** C4: a write of [battery_charger_disable] or [battery_charger_enable]
    whose result is tested (every write but that of charge option 0, command
    0x12) and which fails is the last transaction of the call; the call
    returns the negative result of that write, and [charger_enabled] is what
    it was before the call.  Nothing written earlier in the call is taken
    back: the log only grows. *)
Theorem gating_write_failure (f : M Z) (s : state)
    (pre post : list bus_op) (a c v r : Z) :
  f = battery_charger_disable \/ f = battery_charger_enable ->
  bus_log (snd (f s)) = bus_log s ++ pre ++ BusWrite a c v r :: post ->
  c <> 0x12 -> r < 0 ->
  fst (f s) = r /\ post = [] /\
  charger_enabled (snd (f s)) = charger_enabled s.
Proof.
  intros Hf Hlog Hc Hr.
  destruct Hf as [-> | ->]; destruct (charger_enabled s) eqn:E.
  - rewrite (disable_when_enabled s E) in *. run_gating Hlog.
  - rewrite (disable_when_disabled s E) in *. run_gating Hlog.
  - rewrite (enable_when_enabled s E) in *. run_gating Hlog.
  - rewrite (enable_when_disabled s E) in *. run_gating Hlog.
Qed.

(** C5 (as amended): [battery_charger_disable] on a charger marked disabled,
    and [battery_charger_enable] on a charger marked enabled, leave the
    state as it is, bus log included, and return 0; and when a call of
    either did not fail, the same call made again right after it does
    nothing and returns 0. *)
Theorem charger_calls_idempotent_after_success (s : state) :
  (charger_enabled s = false -> battery_charger_disable s = (0, s)) /\
  (charger_enabled s = true -> battery_charger_enable s = (0, s)) /\
  (0 <= fst (battery_charger_disable s) ->
   battery_charger_disable (snd (battery_charger_disable s)) =
     (0, snd (battery_charger_disable s))) /\
  (0 <= fst (battery_charger_enable s) ->
   battery_charger_enable (snd (battery_charger_enable s)) =
     (0, snd (battery_charger_enable s))).
Proof.
  split; [apply disable_when_disabled|].
  split; [apply enable_when_enabled|].
  split; intros Hres; destruct (charger_enabled s) eqn:E.
  - rewrite (disable_when_enabled s E) in *. cbv zeta in *.
    repeat match goal with H : context [?x <? 0] |- _ =>
      destruct (Z.ltb_spec x 0) end; cbn [fst snd] in *; try lia.
    apply disable_when_disabled. destruct s; reflexivity.
  - rewrite (disable_when_disabled s E). cbn [snd].
    now apply disable_when_disabled.
  - rewrite (enable_when_enabled s E). cbn [snd].
    now apply enable_when_enabled.
  - rewrite (enable_when_disabled s E) in *. cbv zeta in *.
    repeat match goal with H : context [?x <? 0] |- _ =>
      destruct (Z.ltb_spec x 0) end; cbn [fst snd] in *; try lia.
    apply enable_when_enabled. destruct s; reflexivity.
Qed.

(** ** The telemetry snapshot *)

(** One expansion of the [command] macro: one read, and the variable holds
    the word read, or 0 when the read failed. *)
Lemma command_run (set_N : Z -> state -> state) (V : Z) (s : state) :
  (forall a b s0, set_N a (set_N b s0) = set_N a s0) ->
  let r := battery_read (bus_log s) V in
  command set_N V s =
    (tt, set_N (field_after r) (set_bus_log (bus_log s ++ [r]) s)).
Proof.
  intros Hset. cbv zeta. unfold command, field_after, battery_read.
  run_monad. cbn [fst snd result data_of].
  destruct (_ <? 0); [rewrite Hset|]; reflexivity.
Qed.

Ltac norm_fields :=
  cbv beta iota delta
      [bus_log set_bus_log set_battery_temp set_battery_voltage
       set_battery_current set_battery_charge set_battery_remaining_capacity
       set_battery_full_capacity set_battery_status
       set_battery_design_capacity set_battery_design_voltage
       battery_temp battery_voltage battery_current battery_charge
       battery_remaining_capacity battery_full_capacity battery_status
       battery_design_capacity battery_design_voltage
       battery_start_threshold battery_stop_threshold charger_enabled
       should_charge];
  rewrite <- ?app_assoc; cbn [app].

Ltac step_command :=
  unfold bind at 1;
  rewrite command_run by (intros ? ? []; reflexivity);
  norm_fields.

(** C7: one call of [battery_event] issues nine reads to the battery, one
    per telemetry variable and in the order of the variables, at the command
    codes 0x08, 0x09, 0x0A, 0x0D, 0x0F, 0x10, 0x16, 0x18 and 0x19.  Each
    variable ends up with 0 when its own read failed and with the word of
    its own read otherwise, whatever became of the other reads; nothing else
    of the state changes, and the call always returns. *)
Theorem battery_event_snapshot (s : state) :
  let l0 := bus_log s in
  let r1 := battery_read l0 0x08 in
  let r2 := battery_read (l0 ++ [r1]) 0x09 in
  let r3 := battery_read (l0 ++ [r1; r2]) 0x0A in
  let r4 := battery_read (l0 ++ [r1; r2; r3]) 0x0D in
  let r5 := battery_read (l0 ++ [r1; r2; r3; r4]) 0x0F in
  let r6 := battery_read (l0 ++ [r1; r2; r3; r4; r5]) 0x10 in
  let r7 := battery_read (l0 ++ [r1; r2; r3; r4; r5; r6]) 0x16 in
  let r8 := battery_read (l0 ++ [r1; r2; r3; r4; r5; r6; r7]) 0x18 in
  let r9 := battery_read (l0 ++ [r1; r2; r3; r4; r5; r6; r7; r8]) 0x19 in
  battery_event s =
    (tt,
     mk_state (field_after r1) (field_after r2) (field_after r3)
       (field_after r4) (field_after r5) (field_after r6) (field_after r7)
       (field_after r8) (field_after r9)
       (battery_start_threshold s) (battery_stop_threshold s)
       (charger_enabled s) (should_charge s)
       (l0 ++ [r1; r2; r3; r4; r5; r6; r7; r8; r9])).
Proof.
  cbv zeta. destruct s. unfold battery_event.
  do 8 step_command.
  rewrite command_run by (intros ? ? []; reflexivity).
  norm_fields. reflexivity.
Qed.

(** ** Polling leaves the policy state alone *)

Lemma polled_refl (s : state) : polled s s.
Proof.
  repeat split. exists []. now rewrite app_nil_r.
Qed.

Lemma polled_telemetry (s s' : state) :
  battery_start_threshold s' = battery_start_threshold s ->
  battery_stop_threshold s' = battery_stop_threshold s ->
  charger_enabled s' = charger_enabled s ->
  should_charge s' = should_charge s ->
  bus_log s' = bus_log s ->
  polled s s'.
Proof.
  intros ? ? ? ? L. repeat split; try assumption.
  exists []. now rewrite app_nil_r.
Qed.

Lemma polled_trans (s1 s2 s3 : state) :
  polled s1 s2 -> polled s2 s3 -> polled s1 s3.
Proof.
  intros (A1 & B1 & C1 & D1 & rs1 & L1 & R1) (A2 & B2 & C2 & D2 & rs2 & L2 & R2).
  repeat split; try congruence.
  exists (rs1 ++ rs2). rewrite L2, L1, app_assoc, forallb_app, R1, R2.
  now split.
Qed.

Lemma polled_bind {A B : Type} (m : M A) (k : A -> M B) :
  (forall s, polled s (snd (m s))) ->
  (forall a s, polled s (snd (k a s))) ->
  forall s, polled s (snd (bind m k s)).
Proof.
  intros Hm Hk s. unfold bind. specialize (Hm s).
  destruct (m s) as [a s']. cbn [snd] in Hm.
  eapply polled_trans; [exact Hm | apply Hk].
Qed.

Lemma smbus_read_polled (A V : Z) (s : state) :
  polled s (snd (smbus_read A V s)).
Proof.
  unfold smbus_read. cbn [snd]. destruct s. repeat split.
  cbn [bus_log set_bus_log]. eexists. split; reflexivity.
Qed.

Lemma command_polled (set_N : Z -> state -> state) (V : Z) :
  (forall v s, polled s (set_N v s)) ->
  forall s, polled s (snd (command set_N V s)).
Proof.
  intros Hset. unfold command.
  apply polled_bind; [apply smbus_read_polled | intros r].
  apply polled_bind; [intros s; apply Hset | intros _].
  destruct (fst r <? 0); intros s; [apply Hset | apply polled_refl].
Qed.

Lemma battery_event_polled (s : state) : polled s (snd (battery_event s)).
Proof.
  revert s. unfold battery_event.
  repeat (apply polled_bind; [|intros _]);
    apply command_polled; intros v s; apply polled_telemetry; reflexivity.
Qed.

Lemma battery_debug_polled (s : state) : polled s (snd (battery_debug s)).
Proof.
  revert s. unfold battery_debug, debug_command.
  repeat (apply polled_bind; [|intros _]);
    try apply smbus_read_polled; intros s; apply polled_refl.
Qed.

(** ** The threshold store *)

Lemma config_set_value_keeps_bounds (config : config_t) (v : Z) :
  let config' := snd (config_set_value config v) in
  min_value (config_value config') = min_value (config_value config) /\
  max_value (config_value config') = max_value (config_value config) /\
  (in_bounds config -> in_bounds config').
Proof.
  cbv zeta. unfold config_set_value, in_bounds.
  destruct (Z.ltb_spec v (min_value (config_value config)));
    destruct (Z.ltb_spec (max_value (config_value config)) v);
    cbn; repeat split; intros; lia.
Qed.

Lemma thresholds_valid_same (s s' : state) :
  battery_start_threshold s' = battery_start_threshold s ->
  battery_stop_threshold s' = battery_stop_threshold s ->
  thresholds_valid s -> thresholds_valid s'.
Proof. unfold thresholds_valid. now intros -> ->. Qed.

Lemma exec_thresholds_valid (c : call) (s : state) :
  thresholds_valid s -> thresholds_valid (exec c s).
Proof.
  intros H. destruct c; cbn [exec].
  - exact H.
  - exact H.
  - unfold battery_set_start_threshold.
    pose proof (config_set_value_keeps_bounds (battery_start_threshold s) v)
      as (Hmin & Hmax & Hin).
    destruct (config_set_value (battery_start_threshold s) v) as [ok c'].
    cbn [snd] in *. destruct H as ((A & B & C) & D).
    destruct s; unfold thresholds_valid; cbn in *.
    split; [split; [congruence | split; [congruence | now apply Hin]]
           | exact D].
  - unfold battery_set_stop_threshold.
    pose proof (config_set_value_keeps_bounds (battery_stop_threshold s) v)
      as (Hmin & Hmax & Hin).
    destruct (config_set_value (battery_stop_threshold s) v) as [ok c'].
    cbn [snd] in *. destruct H as (D & (A & B & C)).
    destruct s; unfold thresholds_valid; cbn in *.
    split; [exact D
           | split; [congruence | split; [congruence | now apply Hin]]].
  - destruct (disable_same_inputs s) as (_ & A & B & _).
    now apply (thresholds_valid_same s).
  - destruct (enable_same_inputs s) as (_ & A & B & _).
    now apply (thresholds_valid_same s).
  - destruct (configure_same_inputs s) as (_ & A & B).
    now apply (thresholds_valid_same s).
  - destruct (battery_event_polled s) as (A & B & _).
    now apply (thresholds_valid_same s).
  - destruct (battery_debug_polled s) as (A & B & _).
    now apply (thresholds_valid_same s).
Qed.

Lemma run_thresholds_valid (cs : list call) (s : state) :
  thresholds_valid s -> thresholds_valid (run cs s).
Proof.
  revert s. induction cs as [|c cs IH]; intros s H; [exact H|].
  apply IH. now apply exec_thresholds_valid.
Qed.

Lemma initial_thresholds_valid : thresholds_valid initial_state.
Proof. unfold thresholds_valid, in_bounds. cbn. lia. Qed.

(** C8: the start threshold defaults to 0 and the stop threshold to 100.
    After any history of calls, the start threshold lies in [0, 99] and the
    stop threshold in [1, 100]; the getters return the stored value and
    change nothing; [battery_set_start_threshold] with a value outside
    [0, 99] and [battery_set_stop_threshold] with a value outside [1, 100]
    return false and change nothing, and with a value inside they return
    true and the getter returns that value from then on. *)
Theorem threshold_store_validates (cs : list call) (v : Z) :
  let s := run cs initial_state in
  (fst (battery_get_start_threshold initial_state) = 0 /\
   fst (battery_get_stop_threshold initial_state) = 100) /\
  (0 <= fst (battery_get_start_threshold s) <= 99 /\
   1 <= fst (battery_get_stop_threshold s) <= 100) /\
  (battery_get_start_threshold s =
     (value (config_value (battery_start_threshold s)), s) /\
   battery_get_stop_threshold s =
     (value (config_value (battery_stop_threshold s)), s)) /\
  (v < 0 \/ 99 < v -> battery_set_start_threshold v s = (false, s)) /\
  (v < 1 \/ 100 < v -> battery_set_stop_threshold v s = (false, s)) /\
  (0 <= v <= 99 ->
   fst (battery_set_start_threshold v s) = true /\
   fst (battery_get_start_threshold
          (snd (battery_set_start_threshold v s))) = v) /\
  (1 <= v <= 100 ->
   fst (battery_set_stop_threshold v s) = true /\
   fst (battery_get_stop_threshold
          (snd (battery_set_stop_threshold v s))) = v).
Proof.
  cbv zeta.
  pose proof (run_thresholds_valid cs initial_state initial_thresholds_valid)
    as ((A1 & B1 & C1) & (A2 & B2 & C2)).
  unfold in_bounds in C1, C2. rewrite A1, B1 in C1. rewrite A2, B2 in C2.
  set (s := run cs initial_state) in *.
  unfold battery_get_start_threshold, battery_get_stop_threshold,
    battery_set_start_threshold, battery_set_stop_threshold, gets,
    config_get_value, config_set_value.
  rewrite A1, B1, A2, B2. cbn [fst snd].
  split; [split; reflexivity|].
  split; [split; assumption|].
  split; [split; reflexivity|].
  split; [intros Hv | split; [intros Hv | split; intros Hv]].
  - replace ((v <? 0) || (99 <? v)) with true
      by (destruct (Z.ltb_spec v 0), (Z.ltb_spec 99 v); cbn; lia).
    destruct s; reflexivity.
  - replace ((v <? 1) || (100 <? v)) with true
      by (destruct (Z.ltb_spec v 1), (Z.ltb_spec 100 v); cbn; lia).
    destruct s; reflexivity.
  - replace ((v <? 0) || (99 <? v)) with false
      by (destruct (Z.ltb_spec v 0), (Z.ltb_spec 99 v); cbn; lia).
    destruct s; split; reflexivity.
  - replace ((v <? 1) || (100 <? v)) with false
      by (destruct (Z.ltb_spec v 1), (Z.ltb_spec 100 v); cbn; lia).
    destruct s; split; reflexivity.
Qed.

(** ** The watchdog-armed baseline *)

Lemma guarded_app (seen : bool) (l m : list bus_op) :
  guarded seen (l ++ m) =
  guarded seen l && guarded (seen || existsb enable_completed l) m.
Proof.
  revert seen. induction l as [|op l IH]; intros seen; cbn.
  - now rewrite orb_false_r.
  - rewrite IH, orb_assoc, andb_assoc. reflexivity.
Qed.

Lemma guarded_seen (l : list bus_op) : guarded true l = true.
Proof.
  induction l as [|op l IH]; cbn; [reflexivity|].
  now rewrite orb_true_r, IH.
Qed.

Lemma guarded_reads (seen : bool) (rs : list bus_op) :
  forallb is_read rs = true -> guarded seen rs = true.
Proof.
  revert seen. induction rs as [|[] rs IH]; intros seen H; cbn in *;
    [reflexivity | discriminate | ].
  rewrite orb_false_r. now apply IH.
Qed.

Lemma guarded_place (seen : bool) (pre post : list bus_op) (op : bus_op) :
  guarded seen (pre ++ op :: post) = true ->
  watchdog_armed op = true ->
  seen || existsb enable_completed pre = true.
Proof.
  rewrite guarded_app. cbn [guarded]. intros H Hop.
  rewrite Hop in H. cbn [negb orb] in H.
  apply andb_prop in H as (_ & H). apply andb_prop in H as (H & _).
  exact H.
Qed.

Lemma watchdog_invariant_polled (s s' : state) :
  polled s s' -> watchdog_invariant s -> watchdog_invariant s'.
Proof.
  intros (_ & _ & Hen & _ & rs & Hl & Hrs) (G & E).
  unfold watchdog_invariant. rewrite Hl. split.
  - rewrite guarded_app, G. now apply guarded_reads.
  - rewrite Hen. intros H. rewrite existsb_app, (E H). reflexivity.
Qed.

Lemma watchdog_invariant_should_charge (b : bool) (s : state) :
  watchdog_invariant s -> watchdog_invariant (set_should_charge b s).
Proof. destruct s. exact (fun H => H). Qed.

Lemma watchdog_invariant_start (c : config_t) (s : state) :
  watchdog_invariant s -> watchdog_invariant (set_battery_start_threshold c s).
Proof. destruct s. exact (fun H => H). Qed.

Lemma watchdog_invariant_stop (c : config_t) (s : state) :
  watchdog_invariant s -> watchdog_invariant (set_battery_stop_threshold c s).
Proof. destruct s. exact (fun H => H). Qed.

Ltac run_invariant G :=
  cbv zeta;
  repeat match goal with |- context [if ?x <? 0 then _ else _] =>
    destruct (x <? 0) end;
  cbn [snd]; unfold watchdog_invariant;
  cbn [bus_log charger_enabled set_bus_log set_charger_enabled];
  rewrite guarded_app, existsb_app, G.

Lemma disable_watchdog_invariant (s : state) :
  watchdog_invariant s ->
  watchdog_invariant (snd (battery_charger_disable s)).
Proof.
  intros (G & E). destruct (charger_enabled s) eqn:En.
  - specialize (E eq_refl).
    rewrite (disable_when_enabled s En). run_invariant G.
    all: rewrite E; cbn [andb orb]; rewrite guarded_seen;
      split; [reflexivity | intros; first [reflexivity | discriminate]].
  - rewrite (disable_when_disabled s En). cbn [snd].
    split; [exact G | rewrite En; discriminate].
Qed.

Lemma enable_watchdog_invariant (s : state) :
  watchdog_invariant s ->
  watchdog_invariant (snd (battery_charger_enable s)).
Proof.
  intros (G & E). destruct (charger_enabled s) eqn:En.
  - rewrite (enable_when_enabled s En). cbn [snd].
    split; [exact G | intros _; exact (E eq_refl)].
  - rewrite (enable_when_disabled s En). run_invariant G.
    all: unfold charger_write; cbn [andb]; split;
      [ reflexivity
      | intros; first [congruence | cbn; now rewrite !orb_true_r ] ].
Qed.

Lemma exec_watchdog_invariant (c : call) (s : state) :
  watchdog_invariant s -> watchdog_invariant (exec c s).
Proof.
  intros H. destruct c; cbn [exec].
  - exact H.
  - exact H.
  - unfold battery_set_start_threshold.
    destruct (config_set_value _ _). now apply watchdog_invariant_start.
  - unfold battery_set_stop_threshold.
    destruct (config_set_value _ _). now apply watchdog_invariant_stop.
  - now apply disable_watchdog_invariant.
  - now apply enable_watchdog_invariant.
  - rewrite configure_run. cbv zeta.
    destruct (spec_decision _ _ _ _);
      [apply enable_watchdog_invariant | apply disable_watchdog_invariant];
      now apply watchdog_invariant_should_charge.
  - exact (watchdog_invariant_polled _ _ (battery_event_polled s) H).
  - exact (watchdog_invariant_polled _ _ (battery_debug_polled s) H).
Qed.

Lemma run_watchdog_invariant (cs : list call) (s : state) :
  watchdog_invariant s -> watchdog_invariant (run cs s).
Proof.
  revert s. induction cs as [|c cs IH]; intros s H; [exact H|].
  apply IH. now apply exec_watchdog_invariant.
Qed.

(** C10: a call of [battery_charger_enable] that gets past its guard finds
    the charger marked disabled, so the [battery_charger_disable] it calls
    writes nothing and returns 0, and none of the writes of that call of
    [battery_charger_enable] is a watchdog-armed write of charge option 0.
    In the bus log of any history of calls from the initial state, a
    watchdog-armed write of charge option 0 is found only after the last
    write of a call of [battery_charger_enable] that ran to its end. *)
Theorem enable_never_forces_baseline :
  (forall s : state,
     charger_enabled s = false ->
     battery_charger_disable s = (0, s) /\
     exists ws,
       bus_log (snd (battery_charger_enable s)) = bus_log s ++ ws /\
       existsb watchdog_armed ws = false) /\
  charger_enabled initial_state = false /\
  (forall (cs : list call) (pre post : list bus_op) (op : bus_op),
     bus_log (run cs initial_state) = pre ++ op :: post ->
     watchdog_armed op = true ->
     existsb enable_completed pre = true).
Proof.
  split; [|split; [reflexivity|]].
  - intros s En. split; [now apply disable_when_disabled|].
    rewrite (enable_when_disabled s En). cbv zeta.
    repeat match goal with |- context [if ?x <? 0 then _ else _] =>
      destruct (x <? 0) end;
    cbn [snd bus_log set_bus_log set_charger_enabled];
    eexists; (split; [reflexivity|]); reflexivity.
  - intros cs pre post op Hlog Hop.
    destruct (run_watchdog_invariant cs initial_state) as (G & _);
      [split; [reflexivity | discriminate]|].
    rewrite Hlog in G. exact (guarded_place false pre post op G Hop).
Qed.


(** * Further properties *)

(** ** Result codes and the charger flag *)

Lemma disable_result_flag (s : state) :
  fst (battery_charger_disable s) <= 0 /\
  (fst (battery_charger_disable s) = 0 <->
   charger_enabled (snd (battery_charger_disable s)) = false).
Proof.
  destruct (charger_enabled s) eqn:E.
  - rewrite (disable_when_enabled s E). cbv zeta.
    repeat match goal with |- context [if ?x <? 0 then _ else _] =>
      destruct (Z.ltb_spec x 0) end;
    cbn [fst snd charger_enabled set_bus_log set_charger_enabled];
    rewrite ?E; (split; [lia | split; intros; first [lia | congruence]]).
  - rewrite (disable_when_disabled s E). cbn [fst snd].
    split; [lia | split; intros; [exact E | reflexivity]].
Qed.

Lemma enable_result_flag (s : state) :
  fst (battery_charger_enable s) <= 0 /\
  (fst (battery_charger_enable s) = 0 <->
   charger_enabled (snd (battery_charger_enable s)) = true).
Proof.
  destruct (charger_enabled s) eqn:E.
  - rewrite (enable_when_enabled s E). cbn [fst snd].
    split; [lia | split; intros; [exact E | reflexivity]].
  - rewrite (enable_when_disabled s E). cbv zeta.
    repeat match goal with |- context [if ?x <? 0 then _ else _] =>
      destruct (Z.ltb_spec x 0) end;
    cbn [fst snd charger_enabled set_bus_log set_charger_enabled];
    rewrite ?E; (split; [lia | split; intros; first [lia | congruence]]).
Qed.

(** X1: [battery_charger_disable] and [battery_charger_enable] return 0 or
    a negative number, never a positive one; [battery_charger_disable]
    returns 0 exactly when the charger is marked disabled afterwards, and
    [battery_charger_enable] returns 0 exactly when it is marked enabled
    afterwards. *)
Theorem charger_result_tells_flag (s : state) :
  (fst (battery_charger_disable s) <= 0 /\
   (fst (battery_charger_disable s) = 0 <->
    charger_enabled (snd (battery_charger_disable s)) = false)) /\
  (fst (battery_charger_enable s) <= 0 /\
   (fst (battery_charger_enable s) = 0 <->
    charger_enabled (snd (battery_charger_enable s)) = true)).
Proof.
  split; [apply disable_result_flag | apply enable_result_flag].
Qed.

Lemma configure_should_charge (s : state) :
  should_charge (snd (battery_charger_configure s)) =
  bool_of_command
    (spec_decision (battery_charge s)
       (config_get_value (battery_start_threshold s))
       (config_get_value (battery_stop_threshold s))
       (command_of_bool (should_charge s))).
Proof.
  rewrite configure_run. cbv zeta.
  destruct (spec_decision _ _ _ _); cbn [bool_of_command].
  - now destruct (enable_same_inputs (set_should_charge true s))
      as (_ & _ & _ & ->).
  - now destruct (disable_same_inputs (set_should_charge false s))
      as (_ & _ & _ & ->).
Qed.

(** X2: [battery_charger_configure] returns 0 or a negative number, and it
    returns 0 exactly when, after the call, the charger flag agrees with the
    decision the call has just stored. *)
Theorem configure_result_tells_sync (s : state) :
  fst (battery_charger_configure s) <= 0 /\
  (fst (battery_charger_configure s) = 0 <->
   charger_enabled (snd (battery_charger_configure s)) =
   should_charge (snd (battery_charger_configure s))).
Proof.
  rewrite configure_should_charge. rewrite configure_run. cbv zeta.
  destruct (spec_decision _ _ _ _); cbn [bool_of_command].
  - apply enable_result_flag.
  - apply disable_result_flag.
Qed.


Lemma configure_result_tells_sync_aux (s : state) :
  fst (battery_charger_configure s) <= 0.
Proof.
  rewrite configure_run. cbv zeta.
  destruct (spec_decision _ _ _ _);
    [apply enable_result_flag | apply disable_result_flag].
Qed.

Lemma configure_flag_sync (s : state) :
  fst (battery_charger_configure s) = 0 ->
  charger_enabled (snd (battery_charger_configure s)) =
  should_charge (snd (battery_charger_configure s)).
Proof.
  rewrite configure_should_charge. rewrite configure_run. cbv zeta.
  destruct (spec_decision _ _ _ _); cbn [bool_of_command].
  - apply enable_result_flag.
  - apply disable_result_flag.
Qed.

(** ** Calls in a row *)

Lemma set_should_charge_same (s : state) :
  set_should_charge (should_charge s) s = s.
Proof. now destruct s. Qed.

Lemma spec_decision_again (c s t : Z) (d : ChargeCommand) :
  spec_decision c s t (spec_decision c s t d) = spec_decision c s t d.
Proof.
  unfold spec_decision, decision_rules, first_match.
  destruct (t =? 100), (c >=? t), (s =? 0), (c <=? s); reflexivity.
Qed.

Lemma command_of_bool_of_command (d : ChargeCommand) :
  command_of_bool (bool_of_command d) = d.
Proof. now destruct d. Qed.

(** X3: when a call of [battery_charger_configure] does not fail, a second
    call right after it (same charge percentage, same thresholds) takes the
    same decision, puts nothing on the bus and returns 0. *)
Theorem configure_steady_state (s : state) :
  0 <= fst (battery_charger_configure s) ->
  battery_charger_configure (snd (battery_charger_configure s)) =
    (0, snd (battery_charger_configure s)).
Proof.
  intros Hres.
  assert (Hzero : fst (battery_charger_configure s) = 0)
    by (pose proof (configure_result_tells_sync_aux s); lia).
  pose proof (configure_same_inputs s) as (Hc & Hs & Ht). cbv zeta in *.
  pose proof (configure_should_charge s) as Hd.
  pose proof (configure_flag_sync s) as Hsync.
  apply Hsync in Hzero.
  set (s1 := snd (battery_charger_configure s)) in *.
  rewrite (configure_run s1). cbv zeta.
  rewrite Hc, Hs, Ht, Hd, command_of_bool_of_command, spec_decision_again.
  rewrite <- Hd, set_should_charge_same.
  rewrite Hd in *.
  destruct (spec_decision _ _ _ _); cbn [bool_of_command] in *.
  - now apply enable_when_enabled.
  - now apply disable_when_disabled.
Qed.


Lemma command_of_bool_of_command_bool (b : bool) :
  bool_of_command (command_of_bool b) = b.
Proof. now destruct b. Qed.

(** X4: a call that failed leaves the charger flag as it found it, so the
    opposite call made right after it finds nothing to do: after a failed
    [battery_charger_enable] a call of [battery_charger_disable] writes
    nothing (the limits the failed call has written stay) and returns 0, and
    after a failed [battery_charger_disable] a call of
    [battery_charger_enable] writes nothing and returns 0. *)
Theorem opposite_call_after_failure (s : state) :
  (fst (battery_charger_enable s) < 0 ->
   battery_charger_disable (snd (battery_charger_enable s)) =
     (0, snd (battery_charger_enable s))) /\
  (fst (battery_charger_disable s) < 0 ->
   battery_charger_enable (snd (battery_charger_disable s)) =
     (0, snd (battery_charger_disable s))).
Proof.
  split; intros Hres.
  - apply disable_when_disabled.
    destruct (enable_result_flag s) as (_ & Hflag).
    destruct (charger_enabled (snd (battery_charger_enable s))) eqn:E;
      [|reflexivity].
    assert (fst (battery_charger_enable s) = 0)
      by (apply Hflag; reflexivity).
    lia.
  - apply enable_when_enabled.
    destruct (disable_result_flag s) as (_ & Hflag).
    destruct (charger_enabled (snd (battery_charger_disable s))) eqn:E;
      [reflexivity|].
    assert (fst (battery_charger_disable s) = 0)
      by (apply Hflag; reflexivity).
    lia.
Qed.

(** ** The decision as a function of its inputs *)

Lemma spec_decision_closed_form (c s t : Z) (d : ChargeCommand) :
  bool_of_command (spec_decision c s t d) =
  if in_band c s t then bool_of_command d else (t =? 100) || (c <? t).
Proof.
  unfold spec_decision, decision_rules, first_match, in_band.
  rewrite Z.geb_leb.
  destruct (Z.eqb_spec t 100), (Z.leb_spec t c), (Z.eqb_spec s 0),
    (Z.leb_spec c s), (Z.ltb_spec s c), (Z.ltb_spec c t);
    cbn; try reflexivity; lia.
Qed.

(** X5: the decision that [battery_charger_configure] stores is the
    remembered one when the charge percentage lies strictly between a start
    threshold other than 0 and a stop threshold other than 100; everywhere
    else it does not depend on the remembered one, and is to charge exactly
    when the stop threshold is 100 or the charge percentage is below the
    stop threshold. *)
Theorem configure_decision_closed_form (s : state) :
  let c := battery_charge s in
  let start := config_get_value (battery_start_threshold s) in
  let stop := config_get_value (battery_stop_threshold s) in
  should_charge (snd (battery_charger_configure s)) =
    if negb (stop =? 100) && negb (start =? 0) && (start <? c) && (c <? stop)
    then should_charge s
    else (stop =? 100) || (c <? stop).
Proof.
  cbv zeta. rewrite configure_should_charge, spec_decision_closed_form.
  unfold in_band. now destruct (should_charge s).
Qed.

(** X6: with the thresholds and the remembered decision the same, a lower
    charge percentage never turns a decision to charge into one not to
    charge. *)
Theorem configure_decision_antitone (s : state) (c c' : Z) :
  c' <= c ->
  should_charge
    (snd (battery_charger_configure (set_battery_charge c s))) = true ->
  should_charge
    (snd (battery_charger_configure (set_battery_charge c' s))) = true.
Proof.
  intros Hle. rewrite !configure_should_charge, !spec_decision_closed_form.
  replace (battery_charge (set_battery_charge c s)) with c
    by (destruct s; reflexivity).
  replace (battery_charge (set_battery_charge c' s)) with c'
    by (destruct s; reflexivity).
  replace (battery_start_threshold (set_battery_charge c s))
    with (battery_start_threshold s) by (destruct s; reflexivity).
  replace (battery_start_threshold (set_battery_charge c' s))
    with (battery_start_threshold s) by (destruct s; reflexivity).
  replace (battery_stop_threshold (set_battery_charge c s))
    with (battery_stop_threshold s) by (destruct s; reflexivity).
  replace (battery_stop_threshold (set_battery_charge c' s))
    with (battery_stop_threshold s) by (destruct s; reflexivity).
  replace (should_charge (set_battery_charge c s))
    with (should_charge s) by (destruct s; reflexivity).
  replace (should_charge (set_battery_charge c' s))
    with (should_charge s) by (destruct s; reflexivity).
  rewrite command_of_bool_of_command_bool.
  unfold in_band.
  set (start := config_get_value (battery_start_threshold s)).
  set (stop := config_get_value (battery_stop_threshold s)).
  destruct (Z.eqb_spec stop 100), (Z.eqb_spec start 0),
    (Z.ltb_spec start c), (Z.ltb_spec c stop),
    (Z.ltb_spec start c'), (Z.ltb_spec c' stop), (should_charge s);
    cbn; intros Hsc; try reflexivity; try discriminate Hsc; lia.
Qed.


(** ** A failed charge read *)

Lemma battery_event_charge (s : state) :
  let l0 := bus_log s in
  let r1 := battery_read l0 0x08 in
  let r2 := battery_read (l0 ++ [r1]) 0x09 in
  let r3 := battery_read (l0 ++ [r1; r2]) 0x0A in
  battery_charge (snd (battery_event s)) =
  field_after (battery_read (l0 ++ [r1; r2; r3]) 0x0D).
Proof.
  cbv zeta. destruct s. unfold battery_event.
  do 8 step_command.
  rewrite command_run by (intros ? ? []; reflexivity).
  norm_fields. reflexivity.
Qed.

Lemma spec_decision_empty_battery (s t : Z) (d : ChargeCommand) :
  0 <= s -> 1 <= t -> spec_decision 0 s t d = Charge.
Proof.
  intros Hs Ht. unfold spec_decision, decision_rules, first_match.
  rewrite Z.geb_leb.
  destruct (Z.eqb_spec t 100), (Z.leb_spec t 0), (Z.eqb_spec s 0),
    (Z.leb_spec 0 s); try reflexivity; lia.
Qed.

(** X7: in a state reached by any history of calls, when the read of the
    relative charge (command 0x0D) fails during [battery_event], the charge
    percentage is 0 afterwards and the call of [battery_charger_configure]
    that follows decides to charge, whatever the thresholds and whatever
    decision was remembered. *)
Theorem failed_charge_read_decides_charge (cs : list call) :
  let s := run cs initial_state in
  let l0 := bus_log s in
  let r1 := battery_read l0 0x08 in
  let r2 := battery_read (l0 ++ [r1]) 0x09 in
  let r3 := battery_read (l0 ++ [r1; r2]) 0x0A in
  result (battery_read (l0 ++ [r1; r2; r3]) 0x0D) < 0 ->
  battery_charge (snd (battery_event s)) = 0 /\
  should_charge
    (snd (battery_charger_configure (snd (battery_event s)))) = true.
Proof.
  cbv zeta. intros Hfail.
  pose proof (run_thresholds_valid cs initial_state initial_thresholds_valid)
    as ((A1 & B1 & C1) & (A2 & B2 & C2)).
  set (s := run cs initial_state) in *.
  pose proof (battery_event_charge s) as Hc. cbv zeta in Hc.
  unfold field_after in Hc.
  destruct (Z.ltb_spec (result (battery_read (bus_log s ++
    [battery_read (bus_log s) 0x08;
     battery_read (bus_log s ++ [battery_read (bus_log s) 0x08]) 0x09;
     battery_read (bus_log s ++
       [battery_read (bus_log s) 0x08;
        battery_read (bus_log s ++ [battery_read (bus_log s) 0x08]) 0x09])
       0x0A]) 0x0D)) 0) as [_|Hge]; [|lia].
  split; [exact Hc|].
  rewrite configure_should_charge, Hc.
  destruct (battery_event_polled s) as (-> & -> & _).
  unfold in_bounds in C1, C2. unfold config_get_value.
  rewrite spec_decision_empty_battery; [reflexivity | lia | lia].
Qed.

(** ** What is written to the bus *)

Lemma reads_permitted (rs : list bus_op) :
  forallb is_read rs = true -> forallb write_permitted rs = true.
Proof.
  induction rs as [|[] rs IH]; cbn [forallb is_read]; intros H;
    [reflexivity | discriminate | ].
  cbn [write_permitted andb]. now apply IH.
Qed.

Lemma polled_permitted (s s' : state) :
  polled s s' ->
  forallb write_permitted (bus_log s) = true ->
  forallb write_permitted (bus_log s') = true.
Proof.
  intros (_ & _ & _ & _ & rs & -> & Hrs) H.
  rewrite forallb_app, H. now apply reads_permitted.
Qed.

Ltac run_permitted H :=
  cbv zeta;
  repeat match goal with |- context [if ?x <? 0 then _ else _] =>
    destruct (x <? 0) end;
  cbn [snd bus_log set_bus_log set_charger_enabled];
  rewrite forallb_app, H; unfold charger_write;
  cbn [forallb write_permitted andb];
  rewrite ?Z.eqb_refl, ?orb_true_r; reflexivity.

Lemma disable_permitted (s : state) :
  forallb write_permitted (bus_log s) = true ->
  forallb write_permitted (bus_log (snd (battery_charger_disable s))) = true.
Proof.
  intros H. destruct (charger_enabled s) eqn:E.
  - rewrite (disable_when_enabled s E). run_permitted H.
  - now rewrite (disable_when_disabled s E).
Qed.

Lemma enable_permitted (s : state) :
  forallb write_permitted (bus_log s) = true ->
  forallb write_permitted (bus_log (snd (battery_charger_enable s))) = true.
Proof.
  intros H. destruct (charger_enabled s) eqn:E.
  - now rewrite (enable_when_enabled s E).
  - rewrite (enable_when_disabled s E). run_permitted H.
Qed.

Lemma exec_permitted (c : call) (s : state) :
  forallb write_permitted (bus_log s) = true ->
  forallb write_permitted (bus_log (exec c s)) = true.
Proof.
  intros H. destruct c; cbn [exec].
  - exact H.
  - exact H.
  - unfold battery_set_start_threshold.
    destruct (config_set_value _ _). now destruct s.
  - unfold battery_set_stop_threshold.
    destruct (config_set_value _ _). now destruct s.
  - now apply disable_permitted.
  - now apply enable_permitted.
  - rewrite configure_run. cbv zeta.
    destruct (spec_decision _ _ _ _);
      [apply enable_permitted | apply disable_permitted];
      now destruct s.
  - exact (polled_permitted _ _ (battery_event_polled s) H).
  - exact (polled_permitted _ _ (battery_debug_polled s) H).
Qed.

Lemma run_permitted_log (cs : list call) (s : state) :
  forallb write_permitted (bus_log s) = true ->
  forallb write_permitted (bus_log (run cs s)) = true.
Proof.
  revert s. induction cs as [|c cs IH]; intros s H; [exact H|].
  apply IH. now apply exec_permitted.
Qed.

(** X8: whatever the history of calls, every write found on the bus goes to
    the charger (never to the battery), to one of the commands 0x12, 0x14,
    0x15 and 0x3F; what is written to 0x12 is one of the two option words,
    and what is written to 0x14, 0x15 and 0x3F is 0 or the 16-bit word of
    the board's limit for that register (the limit itself when it fits 16
    bits). *)
Theorem writes_are_permitted (cs : list call) (a c d r : Z) :
  In (BusWrite a c d r) (bus_log (run cs initial_state)) ->
  a = CHARGER_ADDRESS /\
  0 <= d < 65536 /\
  ((c = 0x12 /\ (d = 0xE108 \/ d = 0x8108)) \/
   (c = 0x14 /\ (d = 0 \/ d = CHARGER_CHARGE_CURRENT mod 65536)) \/
   (c = 0x15 /\ (d = 0 \/ d = CHARGER_CHARGE_VOLTAGE mod 65536)) \/
   (c = 0x3F /\ (d = 0 \/ d = CHARGER_INPUT_CURRENT mod 65536))).
Proof.
  intros Hin.
  pose proof (run_permitted_log cs initial_state eq_refl) as H.
  rewrite forallb_forall in H. specialize (H _ Hin).
  cbn [write_permitted] in H.
  apply andb_prop in H as (Ha & H). apply Z.eqb_eq in Ha.
  split; [exact Ha|].
  unfold to_uint16 in H.
  assert (Hcases :
    (c = 0x12 /\ (d = 0xE108 \/ d = 0x8108)) \/
    (c = 0x14 /\ (d = 0 \/ d = CHARGER_CHARGE_CURRENT mod 65536)) \/
    (c = 0x15 /\ (d = 0 \/ d = CHARGER_CHARGE_VOLTAGE mod 65536)) \/
    (c = 0x3F /\ (d = 0 \/ d = CHARGER_INPUT_CURRENT mod 65536))).
  { repeat (apply orb_prop in H as [H|H]);
      apply andb_prop in H as (Hc & Hd); apply Z.eqb_eq in Hc;
      apply orb_prop in Hd as [Hd|Hd]; apply Z.eqb_eq in Hd;
      try (change disable_option with 0xE108 in Hd);
      try (change enable_option with 0x8108 in Hd); tauto. }
  split; [|exact Hcases].
  pose proof (Z.mod_pos_bound CHARGER_CHARGE_CURRENT 65536 eq_refl).
  pose proof (Z.mod_pos_bound CHARGER_CHARGE_VOLTAGE 65536 eq_refl).
  pose proof (Z.mod_pos_bound CHARGER_INPUT_CURRENT 65536 eq_refl).
  destruct Hcases as [(_ & [-> | ->]) | [(_ & [-> | ->])
    | [(_ & [-> | ->]) | (_ & [-> | ->])]]]; lia.
Qed.


(** ** The diagnostic dump *)

Lemma only_reads_debug_command (A V : Z) :
  only_reads [(A, V)] (debug_command A V).
Proof.
  intros s. unfold debug_command. run_monad.
  eexists. split; [reflexivity|]. split; reflexivity.
Qed.

Lemma only_reads_then (t : Z * Z) (ts : list (Z * Z)) (m k : M unit) :
  only_reads [t] m -> only_reads ts k ->
  only_reads (t :: ts) (bind m (fun _ => k)).
Proof.
  intros Hm Hk s. unfold bind.
  destruct (Hm s) as (rs1 & -> & R1 & T1).
  destruct (Hk (set_bus_log (bus_log s ++ rs1) s)) as (rs2 & -> & R2 & T2).
  exists (rs1 ++ rs2). split; [|split].
  - destruct s. cbn [bus_log set_bus_log]. now rewrite app_assoc.
  - now rewrite forallb_app, R1, R2.
  - now rewrite map_app, T1, T2.
Qed.

(** X9: [battery_debug] reads five battery registers and eleven charger
    registers, in the order of the source, and does nothing else: it writes
    nothing to the bus, and the telemetry variables, the thresholds, the
    remembered decision and the charger flag are as before. *)
Theorem battery_debug_only_reads :
  only_reads
    [ (BATTERY_ADDRESS, 0x08); (BATTERY_ADDRESS, 0x09);
      (BATTERY_ADDRESS, 0x0A); (BATTERY_ADDRESS, 0x0D);
      (BATTERY_ADDRESS, 0x16);
      (CHARGER_ADDRESS, 0x12); (CHARGER_ADDRESS, 0x3B);
      (CHARGER_ADDRESS, 0x38); (CHARGER_ADDRESS, 0x37);
      (CHARGER_ADDRESS, 0x14); (CHARGER_ADDRESS, 0x15);
      (CHARGER_ADDRESS, 0x39); (CHARGER_ADDRESS, 0x3F);
      (CHARGER_ADDRESS, 0x3C); (CHARGER_ADDRESS, 0x3D);
      (CHARGER_ADDRESS, 0x3A) ]
    battery_debug.
Proof.
  unfold battery_debug.
  repeat (apply only_reads_then; [apply only_reads_debug_command|]).
  apply only_reads_debug_command.
Qed.

(** ** The watchdog while the charger is marked disabled *)

Lemma last_option_app (l m : list bus_op) :
  last_option (l ++ m) =
  match last_option m with
  | Some data => Some data
  | None => last_option l
  end.
Proof.
  induction l as [|op l IH]; cbn [app last_option].
  - now destruct (last_option m).
  - rewrite IH. now destruct (last_option m).
Qed.

Lemma last_option_reads (rs : list bus_op) :
  forallb is_read rs = true -> last_option rs = None.
Proof.
  induction rs as [|[] rs IH]; cbn [forallb is_read last_option]; intros H;
    [reflexivity | discriminate | ].
  cbn [andb] in H. now rewrite IH.
Qed.


Lemma polled_armed (s s' : state) :
  polled s s' -> armed_while_disabled s -> armed_while_disabled s'.
Proof.
  intros (_ & _ & Hen & _ & rs & Hl & Hrs) H. unfold armed_while_disabled.
  rewrite Hl, Hen, last_option_app, (last_option_reads rs Hrs). exact H.
Qed.

Ltac run_armed :=
  cbv zeta;
  repeat match goal with |- context [if ?x <? 0 then _ else _] =>
    destruct (x <? 0) end;
  cbn [snd bus_log charger_enabled set_bus_log set_charger_enabled];
  rewrite ?last_option_app; unfold charger_write; cbn [last_option].

Lemma disable_armed (s : state) :
  armed_while_disabled s ->
  armed_while_disabled (snd (battery_charger_disable s)).
Proof.
  intros H. destruct (charger_enabled s) eqn:E.
  - rewrite (disable_when_enabled s E). unfold armed_while_disabled.
    run_armed; rewrite ?E; intros En;
      first [discriminate En | right; reflexivity].
  - now rewrite (disable_when_disabled s E).
Qed.

Lemma enable_armed (s : state) :
  armed_while_disabled s ->
  armed_while_disabled (snd (battery_charger_enable s)).
Proof.
  intros H. destruct (charger_enabled s) eqn:E.
  - now rewrite (enable_when_enabled s E).
  - rewrite (enable_when_disabled s E). unfold armed_while_disabled in *.
    run_armed; intros En; first [discriminate En | exact (H E)].
Qed.

Lemma exec_armed (c : call) (s : state) :
  armed_while_disabled s -> armed_while_disabled (exec c s).
Proof.
  intros H. destruct c; cbn [exec].
  - exact H.
  - exact H.
  - unfold battery_set_start_threshold.
    destruct (config_set_value _ _). now destruct s.
  - unfold battery_set_stop_threshold.
    destruct (config_set_value _ _). now destruct s.
  - now apply disable_armed.
  - now apply enable_armed.
  - rewrite configure_run. cbv zeta.
    destruct (spec_decision _ _ _ _);
      [apply enable_armed | apply disable_armed]; now destruct s.
  - exact (polled_armed _ _ (battery_event_polled s) H).
  - exact (polled_armed _ _ (battery_debug_polled s) H).
Qed.

Lemma run_armed_invariant (cs : list call) (s : state) :
  armed_while_disabled s -> armed_while_disabled (run cs s).
Proof.
  revert s. induction cs as [|c cs IH]; intros s H; [exact H|].
  apply IH. now apply exec_armed.
Qed.

(** X10: after any history of calls, if the charger is marked disabled then
    either no write of charge option 0 has been issued yet, or the last one
    issued carried the option word of [battery_charger_disable], the one
    with the 175 s watchdog bits set. *)
Theorem disabled_means_watchdog_armed (cs : list call) :
  let s := run cs initial_state in
  charger_enabled s = false ->
  last_option (bus_log s) = None \/
  (last_option (bus_log s) = Some disable_option /\
   Z.land disable_option SBC_WDTMR_ADJ_175S = SBC_WDTMR_ADJ_175S).
Proof.
  cbv zeta. intros En.
  destruct (run_armed_invariant cs initial_state) as [H|H];
    [intros _; left; reflexivity | exact En | left; exact H | right].
  split; [exact H | reflexivity].
Qed.


(** ** What the register programmer leaves alone *)

Ltac run_programmed :=
  cbv zeta;
  repeat match goal with |- context [if ?x <? 0 then _ else _] =>
    destruct (x <? 0) end;
  cbn [snd];
  match goal with
  | |- programmed ?s (set_charger_enabled ?b (set_bus_log (_ ++ ?ws) _)) =>
      exists b, ws;
      (split; [reflexivity | split; [cbn; lia | reflexivity]])
  | |- programmed ?s (set_bus_log (_ ++ ?ws) _) =>
      exists (charger_enabled s), ws;
      (split; [now destruct s | split; [cbn; lia | reflexivity]])
  end.

Lemma disable_programmed (s : state) :
  programmed s (snd (battery_charger_disable s)).
Proof.
  destruct (charger_enabled s) eqn:E.
  - rewrite (disable_when_enabled s E). run_programmed.
  - rewrite (disable_when_disabled s E). exists false, [].
    split; [destruct s; cbn in *; subst; now rewrite app_nil_r
           | split; [cbn; lia | reflexivity]].
Qed.

Lemma enable_programmed (s : state) :
  programmed s (snd (battery_charger_enable s)).
Proof.
  destruct (charger_enabled s) eqn:E.
  - rewrite (enable_when_enabled s E). exists true, [].
    split; [destruct s; cbn in *; subst; now rewrite app_nil_r
           | split; [cbn; lia | reflexivity]].
  - rewrite (enable_when_disabled s E). run_programmed.
Qed.

(** X11: a call of [battery_charger_disable] or [battery_charger_enable]
    changes nothing but the charger flag and the bus, on which it issues at
    most four transactions and never a read; a call of
    [battery_charger_configure] does the same after storing its decision.
    The telemetry variables and the thresholds are never touched. *)
Theorem charger_calls_frame (s : state) :
  programmed s (snd (battery_charger_disable s)) /\
  programmed s (snd (battery_charger_enable s)) /\
  programmed
    (set_should_charge
       (should_charge (snd (battery_charger_configure s))) s)
    (snd (battery_charger_configure s)).
Proof.
  split; [apply disable_programmed|].
  split; [apply enable_programmed|].
  rewrite configure_should_charge. rewrite configure_run. cbv zeta.
  destruct (spec_decision _ _ _ _);
    [apply enable_programmed | apply disable_programmed].
Qed.

(** ** Hysteresis over a series of readings *)

Lemma evaluate_step (c : Z) (s : state) :
  let s' := snd (battery_charger_configure (set_battery_charge c s)) in
  battery_start_threshold s' = battery_start_threshold s /\
  battery_stop_threshold s' = battery_stop_threshold s /\
  should_charge s' =
    if in_band c (config_get_value (battery_start_threshold s))
         (config_get_value (battery_stop_threshold s))
    then should_charge s
    else (config_get_value (battery_stop_threshold s) =? 100)
         || (c <? config_get_value (battery_stop_threshold s)).
Proof.
  cbv zeta.
  destruct (configure_same_inputs (set_battery_charge c s)) as (_ & -> & ->).
  rewrite configure_should_charge, spec_decision_closed_form.
  rewrite command_of_bool_of_command_bool.
  destruct s; repeat split.
Qed.

(** X12: with a start threshold other than 0 and a stop threshold other
    than 100, once NoCharge is remembered it stays remembered through any
    series of readings that are all above the start threshold, however many
    calls of [battery_charger_configure] that takes and whatever the bus
    does. *)
Theorem no_charge_held_above_start (charges : list Z) (s : state) :
  config_get_value (battery_start_threshold s) <> 0 ->
  config_get_value (battery_stop_threshold s) <> 100 ->
  Forall (fun c => config_get_value (battery_start_threshold s) < c)
    charges ->
  should_charge s = false ->
  should_charge (evaluate_all charges s) = false.
Proof.
  revert s. induction charges as [|c charges IH]; intros s Hs Ht Hall Hd;
    [exact Hd|].
  inversion Hall as [|? ? Hc Hrest]; subst.
  destruct (evaluate_step c s) as (Es & Et & Ed). cbv zeta in *.
  unfold evaluate_all. cbn [fold_left]. apply IH.
  - now rewrite Es.
  - now rewrite Et.
  - now rewrite Es.
  - rewrite Ed, Hd. unfold in_band.
    destruct (Z.eqb_spec (config_get_value (battery_stop_threshold s)) 100),
      (Z.eqb_spec (config_get_value (battery_start_threshold s)) 0),
      (Z.ltb_spec (config_get_value (battery_start_threshold s)) c),
      (Z.ltb_spec c (config_get_value (battery_stop_threshold s)));
      cbn; try reflexivity; lia.
Qed.

(** X13: once Charge is remembered it stays remembered through any series
    of readings that are all below the stop threshold, whatever the start
    threshold is. *)
Theorem charge_held_below_stop (charges : list Z) (s : state) :
  Forall (fun c => c < config_get_value (battery_stop_threshold s))
    charges ->
  should_charge s = true ->
  should_charge (evaluate_all charges s) = true.
Proof.
  revert s. induction charges as [|c charges IH]; intros s Hall Hd;
    [exact Hd|].
  inversion Hall as [|? ? Hc Hrest]; subst.
  destruct (evaluate_step c s) as (Es & Et & Ed). cbv zeta in *.
  unfold evaluate_all. cbn [fold_left]. apply IH.
  - now rewrite Et.
  - rewrite Ed, Hd.
    destruct (in_band _ _ _); [reflexivity|].
    destruct (Z.ltb_spec c (config_get_value (battery_stop_threshold s)));
      [apply orb_true_r | lia].
Qed.

End Board.

(** * Worked instances on the sample devices *)

Lemma battery_charger_disable_sequence_witness :
  battery_charger_disable (write_failing 0x12) enabled_state =
    (0, set_bus_log
          [ BusWrite CHARGER_ADDRESS 0x12 0xE108 (-1);
            BusWrite CHARGER_ADDRESS 0x14 0 0;
            BusWrite CHARGER_ADDRESS 0x15 0 0;
            BusWrite CHARGER_ADDRESS 0x3F 0 0 ]
          initial_state).
Proof.
  pose proof (battery_charger_disable_sequence (write_failing 0x12)
                enabled_state eq_refl) as H.
  cbv zeta in H. destruct H as (_ & _ & _ & H).
  apply H; discriminate.
Defined.

Lemma battery_charger_enable_sequence_witness :
  battery_charger_enable sample_charge_current sample_charge_voltage
    sample_input_current (write_failing 0x15) initial_state =
    (-1, set_bus_log
           [ BusWrite CHARGER_ADDRESS 0x14 1536 0;
             BusWrite CHARGER_ADDRESS 0x15 8800 (-1) ]
           initial_state).
Proof.
  pose proof (battery_charger_enable_sequence sample_charge_current
                sample_charge_voltage sample_input_current
                (write_failing 0x15) initial_state eq_refl) as H.
  cbv zeta in H. destruct H as (_ & _ & H & _).
  apply H; [discriminate | reflexivity].
Defined.

Lemma gating_write_failure_witness :
  fst (battery_charger_enable sample_charge_current sample_charge_voltage
         sample_input_current (write_failing 0x15) initial_state) = -1 /\
  charger_enabled
    (snd (battery_charger_enable sample_charge_current sample_charge_voltage
            sample_input_current (write_failing 0x15) initial_state)) = false.
Proof.
  destruct (gating_write_failure sample_charge_current sample_charge_voltage
              sample_input_current (write_failing 0x15)
              (battery_charger_enable sample_charge_current
                 sample_charge_voltage sample_input_current
                 (write_failing 0x15))
              initial_state
              [BusWrite CHARGER_ADDRESS 0x14 1536 0] []
              CHARGER_ADDRESS 0x15 8800 (-1))
    as (H1 & _ & H3).
  - right. reflexivity.
  - reflexivity.
  - discriminate.
  - reflexivity.
  - split; assumption.
Defined.

(** C5, as stated, fails: on a device that refuses the charge-current
    write, a first [battery_charger_disable] fails after two writes and
    leaves the charger marked enabled, and the second call writes again. *)
Lemma disable_twice_writes_twice :
  let s1 := snd (battery_charger_disable (write_failing 0x14) enabled_state) in
  let s2 := snd (battery_charger_disable (write_failing 0x14) s1) in
  fst (battery_charger_disable (write_failing 0x14) enabled_state) = -1 /\
  charger_enabled s1 = true /\
  bus_log s1 =
    [ BusWrite CHARGER_ADDRESS 0x12 0xE108 0;
      BusWrite CHARGER_ADDRESS 0x14 0 (-1) ] /\
  bus_log s2 =
    bus_log s1 ++
    [ BusWrite CHARGER_ADDRESS 0x12 0xE108 0;
      BusWrite CHARGER_ADDRESS 0x14 0 (-1) ] /\
  bus_log s2 <> bus_log s1.
Proof. cbv zeta. repeat split. discriminate. Qed.

Lemma charger_calls_idempotent_after_success_witness :
  battery_charger_disable write_ok
    (snd (battery_charger_disable write_ok enabled_state)) =
  (0, snd (battery_charger_disable write_ok enabled_state)) /\
  bus_log (snd (battery_charger_disable write_ok enabled_state)) =
    [ BusWrite CHARGER_ADDRESS 0x12 0xE108 0;
      BusWrite CHARGER_ADDRESS 0x14 0 0;
      BusWrite CHARGER_ADDRESS 0x15 0 0;
      BusWrite CHARGER_ADDRESS 0x3F 0 0 ].
Proof.
  split; [|reflexivity].
  apply (charger_calls_idempotent_after_success sample_charge_current
           sample_charge_voltage sample_input_current write_ok
           enabled_state).
  discriminate.
Defined.

Lemma hysteresis_trace_50_60_70_witness :
  let evaluate c s :=
    battery_charger_configure sample_charge_current sample_charge_voltage
      sample_input_current write_ok (set_battery_charge c s) in
  should_charge
    (snd (evaluate 70 (snd (evaluate 60 (snd (evaluate 50 band_state))))))
  = false.
Proof.
  pose proof (hysteresis_trace_50_60_70 sample_charge_current
                sample_charge_voltage sample_input_current write_ok
                band_state eq_refl eq_refl eq_refl) as H.
  cbv zeta in *. destruct H as (_ & _ & _ & H).
  destruct (should_charge _); [discriminate H | reflexivity].
Defined.

Lemma battery_charger_enable_ignores_option_write_witness :
  let r :=
    battery_charger_enable sample_charge_current sample_charge_voltage
      sample_input_current (write_failing 0x12) initial_state in
  fst r = 0 /\
  charger_enabled (snd r) = true /\
  bus_log (snd r) =
    [ BusWrite CHARGER_ADDRESS 0x14 1536 0;
      BusWrite CHARGER_ADDRESS 0x15 8800 0;
      BusWrite CHARGER_ADDRESS 0x3F 3200 0;
      BusWrite CHARGER_ADDRESS 0x12 0x8108 (-1) ].
Proof.
  pose proof (battery_charger_enable_ignores_option_write
                sample_charge_current sample_charge_voltage
                sample_input_current (write_failing 0x12) initial_state
                eq_refl) as H.
  cbv zeta in H.
  destruct H as (H1 & H2 & H3 & _);
    [discriminate | discriminate | discriminate | reflexivity |].
  repeat split; assumption.
Defined.

Lemma threshold_store_validates_witness :
  let s :=
    run sample_charge_current sample_charge_voltage sample_input_current
      write_ok read_ok [CallSetStart 40; CallSetStop 80] initial_state in
  battery_set_start_threshold 150 s = (false, s) /\
  battery_set_stop_threshold 0 s = (false, s).
Proof.
  cbv zeta. split.
  - apply (threshold_store_validates sample_charge_current
             sample_charge_voltage sample_input_current write_ok read_ok
             [CallSetStart 40; CallSetStop 80] 150).
    right. reflexivity.
  - apply (threshold_store_validates sample_charge_current
             sample_charge_voltage sample_input_current write_ok read_ok
             [CallSetStart 40; CallSetStop 80] 0).
    left. reflexivity.
Defined.

Lemma enable_never_forces_baseline_witness :
  existsb enable_completed
    [ BusWrite CHARGER_ADDRESS 0x14 1536 0;
      BusWrite CHARGER_ADDRESS 0x15 8800 0;
      BusWrite CHARGER_ADDRESS 0x3F 3200 0;
      BusWrite CHARGER_ADDRESS 0x12 0x8108 0 ] = true.
Proof.
  apply (proj2 (proj2 (enable_never_forces_baseline sample_charge_current
           sample_charge_voltage sample_input_current write_ok read_ok))
           [CallEnable; CallDisable] _
           [ BusWrite CHARGER_ADDRESS 0x14 0 0;
             BusWrite CHARGER_ADDRESS 0x15 0 0;
             BusWrite CHARGER_ADDRESS 0x3F 0 0 ]
           (BusWrite CHARGER_ADDRESS 0x12 0xE108 0));
    reflexivity.
Defined.

(** Sample runs. *)

Example battery_event_failed_charge_read :
  battery_event (read_failing 0x0D) initial_state =
    (tt,
     mk_state 1008 1009 1010 0 1015 1016 1022 1024 1025
       initial_start_threshold initial_stop_threshold false true
       [ BusRead BATTERY_ADDRESS 0x08 0 1008;
         BusRead BATTERY_ADDRESS 0x09 0 1009;
         BusRead BATTERY_ADDRESS 0x0A 0 1010;
         BusRead BATTERY_ADDRESS 0x0D (-1) 0xBEEF;
         BusRead BATTERY_ADDRESS 0x0F 0 1015;
         BusRead BATTERY_ADDRESS 0x10 0 1016;
         BusRead BATTERY_ADDRESS 0x16 0 1022;
         BusRead BATTERY_ADDRESS 0x18 0 1024;
         BusRead BATTERY_ADDRESS 0x19 0 1025 ]).
Proof. reflexivity. Qed.

Example configure_stops_at_90 :
  let r :=
    battery_charger_configure sample_charge_current sample_charge_voltage
      sample_input_current write_ok
      (set_battery_charge 90
         (set_should_charge true (set_charger_enabled true band_state))) in
  fst r = 0 /\ should_charge (snd r) = false /\
  charger_enabled (snd r) = false /\
  bus_log (snd r) =
    [ BusWrite CHARGER_ADDRESS 0x12 0xE108 0;
      BusWrite CHARGER_ADDRESS 0x14 0 0;
      BusWrite CHARGER_ADDRESS 0x15 0 0;
      BusWrite CHARGER_ADDRESS 0x3F 0 0 ].
Proof. cbv zeta. repeat split. Qed.

Example configure_starts_at_40 :
  let r :=
    battery_charger_configure sample_charge_current sample_charge_voltage
      sample_input_current write_ok (set_battery_charge 40 band_state) in
  fst r = 0 /\ should_charge (snd r) = true /\
  charger_enabled (snd r) = true /\
  bus_log (snd r) =
    [ BusWrite CHARGER_ADDRESS 0x14 1536 0;
      BusWrite CHARGER_ADDRESS 0x15 8800 0;
      BusWrite CHARGER_ADDRESS 0x3F 3200 0;
      BusWrite CHARGER_ADDRESS 0x12 0x8108 0 ].
Proof. cbv zeta. repeat split. Qed.


(** * Worked instances of the further properties *)

Lemma configure_steady_state_witness :
  let s :=
    set_battery_charge 90
      (set_should_charge true (set_charger_enabled true band_state)) in
  let s1 :=
    snd (battery_charger_configure sample_charge_current
           sample_charge_voltage sample_input_current write_ok s) in
  battery_charger_configure sample_charge_current sample_charge_voltage
    sample_input_current write_ok s1 = (0, s1).
Proof.
  cbv zeta.
  apply (configure_steady_state sample_charge_current sample_charge_voltage
           sample_input_current write_ok).
  discriminate.
Defined.

Lemma opposite_call_after_failure_witness :
  let s1 :=
    snd (battery_charger_enable sample_charge_current sample_charge_voltage
           sample_input_current (write_failing 0x15) initial_state) in
  bus_log s1 =
    [ BusWrite CHARGER_ADDRESS 0x14 1536 0;
      BusWrite CHARGER_ADDRESS 0x15 8800 (-1) ] /\
  battery_charger_disable (write_failing 0x15) s1 = (0, s1).
Proof.
  cbv zeta. split; [reflexivity|].
  apply (opposite_call_after_failure sample_charge_current
           sample_charge_voltage sample_input_current (write_failing 0x15)
           initial_state).
  reflexivity.
Defined.

Lemma configure_decision_antitone_witness :
  should_charge
    (snd (battery_charger_configure sample_charge_current
            sample_charge_voltage sample_input_current write_ok
            (set_battery_charge 30 (set_should_charge true band_state))))
  = true.
Proof.
  apply (configure_decision_antitone sample_charge_current
           sample_charge_voltage sample_input_current write_ok
           (set_should_charge true band_state) 60 30).
  - discriminate.
  - reflexivity.
Defined.

Lemma failed_charge_read_decides_charge_witness :
  let s :=
    run sample_charge_current sample_charge_voltage sample_input_current
      write_ok (read_failing 0x0D) [CallSetStart 40; CallSetStop 80]
      initial_state in
  let s1 := snd (battery_event (read_failing 0x0D) s) in
  battery_charge s1 = 0 /\
  should_charge
    (snd (battery_charger_configure sample_charge_current
            sample_charge_voltage sample_input_current write_ok s1)) = true.
Proof.
  cbv zeta.
  apply (failed_charge_read_decides_charge sample_charge_current
           sample_charge_voltage sample_input_current write_ok
           (read_failing 0x0D) [CallSetStart 40; CallSetStop 80]).
  reflexivity.
Defined.

Lemma writes_are_permitted_witness :
  CHARGER_ADDRESS = CHARGER_ADDRESS /\
  0 <= 1536 < 65536 /\
  ((0x14 = 0x12 /\ (1536 = 0xE108 \/ 1536 = 0x8108)) \/
   (0x14 = 0x14 /\ (1536 = 0 \/ 1536 = sample_charge_current mod 65536)) \/
   (0x14 = 0x15 /\ (1536 = 0 \/ 1536 = sample_charge_voltage mod 65536)) \/
   (0x14 = 0x3F /\ (1536 = 0 \/ 1536 = sample_input_current mod 65536))).
Proof.
  apply (writes_are_permitted sample_charge_current sample_charge_voltage
           sample_input_current write_ok read_ok [CallEnable]
           CHARGER_ADDRESS 0x14 1536 0).
  left. reflexivity.
Defined.

Lemma disabled_means_watchdog_armed_witness :
  last_option
    (bus_log
       (run sample_charge_current sample_charge_voltage sample_input_current
          write_ok read_ok [CallEnable; CallDisable] initial_state))
  = Some 0xE108.
Proof.
  destruct (disabled_means_watchdog_armed sample_charge_current
              sample_charge_voltage sample_input_current write_ok read_ok
              [CallEnable; CallDisable] eq_refl) as [H | (H & _)].
  - discriminate H.
  - exact H.
Defined.

Lemma no_charge_held_above_start_witness :
  should_charge
    (evaluate_all sample_charge_current sample_charge_voltage
       sample_input_current write_ok [90; 70; 50]
       (set_should_charge true band_state)) = false /\
  should_charge
    (evaluate_all sample_charge_current sample_charge_voltage
       sample_input_current write_ok [70; 50; 41] band_state) = false.
Proof.
  split; [reflexivity|].
  apply (no_charge_held_above_start sample_charge_current
           sample_charge_voltage sample_input_current write_ok
           [70; 50; 41] band_state).
  - discriminate.
  - discriminate.
  - repeat constructor.
  - reflexivity.
Defined.

Lemma charge_held_below_stop_witness :
  should_charge
    (evaluate_all sample_charge_current sample_charge_voltage
       sample_input_current write_ok [30; 50; 79]
       (set_should_charge true band_state)) = true.
Proof.
  apply (charge_held_below_stop sample_charge_current sample_charge_voltage
           sample_input_current write_ok [30; 50; 79]
           (set_should_charge true band_state)).
  - repeat constructor.
  - reflexivity.
Defined.

(** A limit that does not fit 16 bits reaches the bus as its 16-bit word:
    70000 is written as 0x1170. *)
Example oversized_limit_is_truncated :
  bus_log
    (snd (battery_charger_enable 70000 sample_charge_voltage
            sample_input_current (write_failing 0x15) initial_state)) =
  [ BusWrite CHARGER_ADDRESS 0x14 0x1170 0;
    BusWrite CHARGER_ADDRESS 0x15 8800 (-1) ].
Proof. reflexivity. Qed.
